(** * WiFi Tester Pro: the saved-passwords dialog and the settings dialog

    A shallow embedding of [src/gui/passwords_dialog.py] and
    [src/gui/settings_dialog.py].  Widgets are reduced to the attributes the
    code reads or writes (a label's text, a button's text and state); calls on
    the toolkit, the clipboard, the file system and the WiFi driver are
    recorded as a trace of events, and every collaborator that may raise is
    given by its outcome at the call. *)

From Stdlib Require Import ZArith NArith String Ascii DecimalString.
From stdpp Require Import base option list gmap sorting.

Local Open Scope N_scope.

(** ** Python values *)

(** A Python [str] is a sequence of Unicode code points; [len] counts code
    points and comparison is lexicographic on them. *)
Abbreviation pystr := (list N).

(** An ASCII literal of the source, as code points. *)
Fixpoint py (s : string) : pystr :=
  match s with
  | EmptyString => []
  | String a r => N_of_ascii a :: py r
  end.

(** The characters of the source that are outside ASCII. *)
Definition nl : pystr := [10].                      (* "\n" *)
Definition bullet : pystr := [8226].                (* U+2022 *)
Definition eye : pystr := [128065].                 (* U+1F441 *)
Definition lock : pystr := [128274].                (* U+1F512 *)
Definition clipboard_icon : pystr := [128203].      (* U+1F4CB *)
Definition check_mark : pystr := [10003].           (* U+2713 *)
Definition link : pystr := [128279].                (* U+1F517 *)
Definition hourglass : pystr := [9203].             (* U+23F3 *)
Definition white_check : pystr := [9989].           (* U+2705 *)
Definition cross_mark : pystr := [10060].           (* U+274C *)
Definition warning_sign : pystr := [9888; 65039].   (* U+26A0 U+FE0F *)

(** [s * n] on strings. *)
Definition str_mul (s : pystr) (n : nat) : pystr := mjoin (replicate n s).

(** [a <= b] on strings: code point by code point, a proper prefix first. *)
Fixpoint str_leb (a b : pystr) : bool :=
  match a, b with
  | [], _ => true
  | _ :: _, [] => false
  | x :: a', y :: b' =>
      if x <? y then true else if y <? x then false else str_leb a' b'
  end.

Definition str_le (a b : pystr) : Prop := str_leb a b = true.
Definition str_lt (a b : pystr) : Prop := str_le a b ∧ a ≠ b.

#[global] Instance str_le_dec : RelDecision str_le.
Proof. intros a b. unfold str_le. apply _. Defined.

(** [needle in hay]. *)
Fixpoint starts_with (needle hay : pystr) : bool :=
  match needle, hay with
  | [], _ => true
  | _ :: _, [] => false
  | x :: n', y :: h' => (x =? y) && starts_with n' h'
  end.

Fixpoint contains (needle hay : pystr) : bool :=
  starts_with needle hay ||
  match hay with
  | [] => false
  | _ :: h' => contains needle h'
  end.

(** Truth value of an optional string: [None] and the empty string are
    false. *)
Definition truthy (o : option pystr) : bool :=
  match o with
  | Some (_ :: _) => true
  | _ => false
  end.

(** [o or d]. *)
Definition py_or (o : option pystr) (d : pystr) : pystr :=
  match o with
  | Some s => if truthy o then s else d
  | None => d
  end.

(** What a call does: it returns a value or raises, the fault carrying its
    description ([str(e)]). *)
Inductive outcome (A : Type) : Type :=
| Returns (a : A)
| Raises (description : pystr).
Arguments Returns {A} a.
Arguments Raises {A} description.

(** ** Collaborators *)

(** The record [get_current_connection] returns. *)
Record connection := { ssid : pystr }.

(** The WiFi driver.  Every method is optional ([hasattr]).  An operation of
    the dialogs calls each method at most once, so a method is given by what
    that call does. *)
Record driver := {
  get_all_saved_passwords : option (outcome (gmap pystr (option pystr)));
  get_saved_profiles : option (outcome (list pystr));
  connect : option (pystr → outcome bool);
  get_current_connection : option (outcome (option connection));
}.

Inductive capability := BulkPasswords | ListProfiles | Connect | CurrentConnection.

(** Callbacks handed to [after]. *)
Inductive callback :=
| restore_copy_btn (original_text : pystr)
| show_test_result (success : bool) (message : pystr)
| restore_test_btn
| display_passwords.

(** The observable calls. *)
Inductive event :=
| clipboard_clear
| clipboard_append (s : pystr)
| show_message (title message msg_type : pystr)
| after (ms : N) (cb : callback)
| driver_call (c : capability) (arg : option pystr)
| sleep (seconds : N)
| print (text : pystr)
| file_write (path text : pystr)
| set_appearance_mode (mode : pystr)
| destroy.

(** ** PasswordRow *)

Module PasswordRow.

Inductive btn_state := normal | disabled.

Record button := { text : pystr; state : btn_state }.

(** A row: the attributes set in [__init__] and the widgets [_create_ui]
    keeps. *)
Record row := {
  _profile_name : pystr;
  _password : option pystr;
  _password_visible : bool;
  _driver : option driver;
  _password_label : pystr;
  _toggle_btn : pystr;
  _copy_btn : pystr;
  _test_btn : button;
}.

Definition no_password_text : pystr := py "No password / Open network".

Definition _get_password_display (self : row) : pystr :=
  match _password self with
  | None => no_password_text
  | Some p =>
      if _password_visible self then p
      else str_mul bullet (Nat.min (length p) 12)
  end.

(** [__init__] followed by [_create_ui]. *)
Definition __init__ (profile_name : pystr) (password : option pystr)
    (drv : option driver) : row :=
  let self :=
    {| _profile_name := profile_name; _password := password;
       _password_visible := false; _driver := drv;
       _password_label := []; _toggle_btn := []; _copy_btn := [];
       _test_btn := {| text := []; state := normal |} |} in
  {| _profile_name := profile_name; _password := password;
     _password_visible := false; _driver := drv;
     _password_label := _get_password_display self;
     _toggle_btn := eye;
     _copy_btn := clipboard_icon;
     _test_btn := {| text := link; state := normal |} |}.

Definition _toggle_password (self : row) : row :=
  let self1 :=
    {| _profile_name := _profile_name self; _password := _password self;
       _password_visible := negb (_password_visible self);
       _driver := _driver self;
       _password_label := _password_label self;
       _toggle_btn := _toggle_btn self; _copy_btn := _copy_btn self;
       _test_btn := _test_btn self |} in
  {| _profile_name := _profile_name self1; _password := _password self1;
     _password_visible := _password_visible self1;
     _driver := _driver self1;
     _password_label := _get_password_display self1;
     _toggle_btn := if _password_visible self1 then lock else eye;
     _copy_btn := _copy_btn self1;
     _test_btn := _test_btn self1 |}.

Definition set_copy_btn (self : row) (t : pystr) : row :=
  {| _profile_name := _profile_name self; _password := _password self;
     _password_visible := _password_visible self; _driver := _driver self;
     _password_label := _password_label self;
     _toggle_btn := _toggle_btn self; _copy_btn := t;
     _test_btn := _test_btn self |}.

Definition set_test_btn (self : row) (b : button) : row :=
  {| _profile_name := _profile_name self; _password := _password self;
     _password_visible := _password_visible self; _driver := _driver self;
     _password_label := _password_label self;
     _toggle_btn := _toggle_btn self; _copy_btn := _copy_btn self;
     _test_btn := b |}.

(** The shared clipboard: [clipboard_clear] and [clipboard_append] may each
    raise. *)
Record clipboard_env := {
  clear_fault : option pystr;
  append_fault : option pystr;
}.

(** [_copy_password], on the row and the clipboard's contents. *)
Definition _copy_password (env : clipboard_env) (self : row)
    (clipboard : pystr) : row * pystr * list event :=
  if truthy (_password self) then
    let p := default [] (_password self) in
    match clear_fault env with
    | Some e =>
        (self, clipboard,
         [show_message (py "Error") (py "Could not copy to clipboard: " ++ e)
            (py "error")])
    | None =>
        match append_fault env with
        | Some e =>
            (self, [],
             [clipboard_clear;
              show_message (py "Error")
                (py "Could not copy to clipboard: " ++ e) (py "error")])
        | None =>
            let original_text := _copy_btn self in
            (set_copy_btn self check_mark, [] ++ p,
             [clipboard_clear; clipboard_append p;
              after 1000 (restore_copy_btn original_text)])
        end
    end
  else
    (self, clipboard,
     [show_message (py "Info") (py "No password to copy") (py "info")]).

(** The messages of a connection test. *)
Definition msg_connected (n : pystr) : pystr :=
  white_check ++ py " Successfully connected to '" ++ n ++ py "'".
Definition msg_unverified : pystr :=
  warning_sign ++ py " Connection initiated but not verified".
Definition msg_sent (n : pystr) : pystr :=
  white_check ++ py " Connection command sent to '" ++ n ++ py "'".
Definition msg_failed (n : pystr) : pystr :=
  cross_mark ++ py " Could not connect to '" ++ n ++ py "'".
Definition msg_no_driver : pystr :=
  cross_mark ++ py " Driver not available for connection test".
Definition msg_error (e : pystr) : pystr :=
  cross_mark ++ py " Error: " ++ e.

(** [current and current.ssid == self._profile_name]. *)
Definition verified (current : option connection) (n : pystr) : bool :=
  match current with
  | Some c => bool_decide (ssid c = n)
  | None => false
  end.

(** The synchronous part of [_test_connection]. *)
Definition _test_connection (self : row) : row :=
  set_test_btn self {| text := hourglass; state := disabled |}.

(** The body of the worker thread: the values of [success] and [message]
    when [after] is reached, and the calls made on the way.  [settle] is what
    [time.sleep(2)] does.  The [except] clause assigns [message] only. *)
Definition do_test (settle : outcome unit) (self : row)
    : bool * pystr * list event :=
  let n := _profile_name self in
  match _driver self with
  | None => (false, msg_no_driver, [])
  | Some drv =>
      match connect drv with
      | None => (false, msg_no_driver, [])
      | Some connect_ =>
          match connect_ n with
          | Raises e => (false, msg_error e, [driver_call Connect (Some n)])
          | Returns false =>
              (false, msg_failed n, [driver_call Connect (Some n)])
          | Returns true =>
              match settle with
              | Raises e =>
                  (true, msg_error e, [driver_call Connect (Some n); sleep 2])
              | Returns _ =>
                  match get_current_connection drv with
                  | None =>
                      (true, msg_sent n,
                       [driver_call Connect (Some n); sleep 2])
                  | Some (Raises e) =>
                      (true, msg_error e,
                       [driver_call Connect (Some n); sleep 2;
                        driver_call CurrentConnection None])
                  | Some (Returns current) =>
                      (true,
                       if verified current n then msg_connected n
                       else msg_unverified,
                       [driver_call Connect (Some n); sleep 2;
                        driver_call CurrentConnection None])
                  end
              end
          end
      end
  end.

(** The whole thread: [do_test] ends by scheduling [_show_test_result]. *)
Definition test_thread (settle : outcome unit) (self : row) : list event :=
  let '(success, message, calls) := do_test settle self in
  calls ++ [after 0 (show_test_result success message)].

Definition _show_test_result (self : row) (success : bool) (message : pystr)
    : row * list event :=
  (set_test_btn self
     {| text := if success then white_check else cross_mark;
        state := normal |},
   [show_message (py "Connection Test") message
      (if success then py "info" else py "warning");
    after 2000 restore_test_btn]).

(** The status a row shows, read off its test button. *)
Inductive test_status := Idle | Testing | Succeeded | Failed.

Definition status (self : row) : option test_status :=
  let b := _test_btn self in
  if bool_decide (text b = link) then Some Idle
  else if bool_decide (text b = hourglass) then Some Testing
  else if bool_decide (text b = white_check) then Some Succeeded
  else if bool_decide (text b = cross_mark) then Some Failed
  else None.

(** What the user is told: the kind of the prompt [_show_test_result]
    raises. *)
Definition reported_as_failure (evs : list event) : bool :=
  match evs with
  | show_message _ _ kind :: _ => bool_decide (kind = py "warning")
  | _ => false
  end.

(** The UI thread runs the callbacks the worker scheduled with a zero
    delay. *)
Fixpoint run_pending (self : row) (evs : list event) : row * list event :=
  match evs with
  | [] => (self, [])
  | after 0 (show_test_result s m) :: rest =>
      let '(self1, shown) := _show_test_result self s m in
      let '(self2, more) := run_pending self1 rest in
      (self2, shown ++ more)
  | _ :: rest => run_pending self rest
  end.

(** A test from the click to the prompt. *)
Definition test_connection_settled (settle : outcome unit) (self : row)
    : row * list event :=
  let self1 := _test_connection self in
  run_pending self1 (test_thread settle self1).

End PasswordRow.

(** ** SavedPasswordsDialog *)

Module SavedPasswordsDialog.

(** The children of the scrollable frame. *)
Inductive widget :=
| label (text : pystr)
| password_row (r : PasswordRow.row).

Record dialog := {
  _driver : option driver;
  _passwords : gmap pystr (option pystr);
  _scroll_frame : list widget;
}.

Definition loading_text : pystr := py "Loading saved networks...".
Definition empty_text : pystr := py "No saved WiFi networks found".

Definition set_passwords (self : dialog) (m : gmap pystr (option pystr))
    : dialog :=
  {| _driver := _driver self; _passwords := m;
     _scroll_frame := _scroll_frame self |}.

Definition set_scroll_frame (self : dialog) (ws : list widget) : dialog :=
  {| _driver := _driver self; _passwords := _passwords self;
     _scroll_frame := ws |}.

(** The synchronous part of [_load_passwords]: the frame is cleared and the
    loading label packed. *)
Definition _load_passwords (self : dialog) : dialog :=
  set_scroll_frame self [label loading_text].

(** [{p: None for p in profiles}] *)
Definition names_only (profiles : list pystr) : gmap pystr (option pystr) :=
  foldl (λ m p, <[p := None]> m) ∅ profiles.

(** How a worker thread ends: its target returned, or a fault left it
    uncaught. *)
Inductive thread_end := returned | uncaught (description : pystr).

(** The body of the worker thread, [load]: the dialog it leaves, the calls
    it made and how it ended.  No call of [load] is inside a [try]. *)
Definition load (self : dialog) : dialog * list event * thread_end :=
  match _driver self with
  | None =>
      (set_passwords self ∅, [after 0 display_passwords], returned)
  | Some drv =>
      match get_all_saved_passwords drv with
      | Some (Returns m) =>
          (set_passwords self m,
           [driver_call BulkPasswords None; after 0 display_passwords],
           returned)
      | Some (Raises e) =>
          (self, [driver_call BulkPasswords None], uncaught e)
      | None =>
          match get_saved_profiles drv with
          | Some (Returns profiles) =>
              (set_passwords self (names_only profiles),
               [driver_call ListProfiles None; after 0 display_passwords],
               returned)
          | Some (Raises e) =>
              (self, [driver_call ListProfiles None], uncaught e)
          | None =>
              (set_passwords self ∅, [after 0 display_passwords], returned)
          end
      end
  end.

(** [sorted(self._passwords.keys())] *)
Definition sorted_profiles (m : gmap pystr (option pystr)) : list pystr :=
  merge_sort str_le (map_to_list m).*1.

(** [_display_passwords]; [None] stands for the [KeyError] of
    [self._passwords[profile]]. *)
Definition _display_passwords (self : dialog) : option dialog :=
  if decide (_passwords self = ∅) then
    Some (set_scroll_frame self [label empty_text])
  else
    rows ← mapM (λ profile,
                   password ← _passwords self !! profile;
                   Some (password_row
                           (PasswordRow.__init__ profile password
                              (_driver self))))
                (sorted_profiles (_passwords self));
    Some (set_scroll_frame self rows).

(** The UI thread runs the callbacks the worker scheduled with a zero
    delay; [rendered] counts the calls of [_display_passwords]. *)
Fixpoint run_pending (self : dialog) (rendered : nat) (evs : list event)
    : option (dialog * nat) :=
  match evs with
  | [] => Some (self, rendered)
  | after 0 display_passwords :: rest =>
      self1 ← _display_passwords self;
      run_pending self1 (S rendered) rest
  | _ :: rest => run_pending self rendered rest
  end.

(** A load from the click to the idle UI: the dialog shown and the number of
    times it was rendered. *)
Definition load_settled (self : dialog) : option (dialog * nat) :=
  let self1 := _load_passwords self in
  let '(self2, evs, _) := load self1 in
  run_pending self2 0 evs.

(** The calls [load] made on the driver. *)
Definition driver_calls (evs : list event) : list capability :=
  omap (λ e, match e with driver_call c _ => Some c | _ => None end) evs.

(** [sorted(self._passwords.items())]: names are unique, so the order of two
    items is the order of their names. *)
Definition item_le (a b : pystr * option pystr) : Prop := str_le a.1 b.1.

#[global] Instance item_le_dec : RelDecision item_le.
Proof. intros a b. unfold item_le. apply _. Defined.

Definition sorted_items (m : gmap pystr (option pystr))
    : list (pystr * option pystr) :=
  merge_sort item_le (map_to_list m).

(** The three lines written for one entry. *)
Definition export_block (item : pystr * option pystr) : pystr :=
  (py "Network: " ++ item.1 ++ nl) ++
  (py "Password: " ++ py_or item.2 (py "(no password)") ++ nl) ++
  (str_mul (py "-") 30 ++ nl).

Definition export_text (m : gmap pystr (option pystr)) : pystr :=
  (py "WiFi Tester Pro - Saved Passwords Export" ++ nl) ++
  (str_mul (py "=") 50 ++ nl ++ nl) ++
  mjoin (export_block <$> sorted_items m).

(** A fault of the destination file during the export.  Either [open]
    raised, and the file is as it was; or [open], which truncates the file,
    returned and a later call raised (a [write], or the flush when the
    [with] block closes the file), and the file holds what had reached it:
    the first [reached] characters of the text. *)
Inductive export_fault :=
| open_fails (description : pystr)
| write_fails (reached : nat) (description : pystr).

(** [_export_passwords]: [chosen] is what the file dialog does (the empty
    string when cancelled).  The event [file_write path text] says that the
    file at [path] is left holding [text]. *)
Definition _export_passwords (chosen : outcome pystr)
    (io_fault : option export_fault) (self : dialog) : list event :=
  if decide (_passwords self = ∅) then
    [show_message (py "Info") (py "No passwords to export") (py "info")]
  else
    match chosen with
    | Raises e =>
        [show_message (py "Error") (py "Export failed: " ++ e) (py "error")]
    | Returns [] => []
    | Returns filepath =>
        match io_fault with
        | Some (open_fails e) =>
            [show_message (py "Error") (py "Export failed: " ++ e)
               (py "error")]
        | Some (write_fails reached e) =>
            [file_write filepath
               (take reached (export_text (_passwords self)));
             show_message (py "Error") (py "Export failed: " ++ e)
               (py "error")]
        | None =>
            [file_write filepath (export_text (_passwords self));
             show_message (py "Success")
               (py "Passwords exported to:" ++ nl ++ filepath) (py "info")]
        end
    end.

End SavedPasswordsDialog.

(** ** SettingsDialog *)

(** The values a settings mapping holds: what [json.load] builds, and the
    integers, booleans and strings the form stores.  A JSON number with a
    fraction or an exponent is carried by its text; a JSON object inside
    another value is the list of its entries, in the order of the
    document. *)
#[local] Set Warnings "-register-all".
Inductive pyval :=
| PyNone
| PyBool (b : bool)
| PyInt (z : Z)
| PyFloat (literal : pystr)
| PyStr (s : pystr)
| PyList (items : list pyval)
| PyDict (items : list (pystr * pyval)).

(** Models of two builtins.

    [int] on text made of ASCII characters, with at most 4300 digits:
    optional surrounding white space, an optional sign, decimal digits with
    single underscores between them; the fault's description quotes the text
    with [repr].  Decimal digits and white space outside ASCII, which Python
    accepts too, are not tabulated here; the properties of
    [_apply_settings] take [int] as a parameter and this model serves the
    examples.

    [dict.update] on a mapping tracked at its string keys, the only ones
    the dialog reads or assigns, with the descriptions CPython 3.8 to 3.13
    give its faults. *)
Module Builtins.

Definition is_space (c : N) : bool := (9 <=? c) && (c <=? 13) || (c =? 32).

Definition digit_of (c : N) : option Z :=
  if (48 <=? c) && (c <=? 57) then Some (Z.of_N c - 48)%Z else None.

Fixpoint lstrip (s : pystr) : pystr :=
  match s with
  | c :: r => if is_space c then lstrip r else s
  | [] => []
  end.

Definition strip (s : pystr) : pystr := rev (lstrip (rev (lstrip s))).

Fixpoint digits (acc : Z) (after_digit : bool) (s : pystr) : option Z :=
  match s with
  | [] => if after_digit then Some acc else None
  | c :: r =>
      if c =? 95 then (if after_digit then digits acc false r else None)
      else match digit_of c with
           | Some d => digits (10 * acc + d)%Z true r
           | None => None
           end
  end.

Definition hex_digit (n : N) : N := if n <? 10 then 48 + n else 87 + n.

Definition escape (quote c : N) : pystr :=
  if (c =? quote) || (c =? 92) then [92; c]
  else if c =? 9 then [92; 116]
  else if c =? 10 then [92; 110]
  else if c =? 13 then [92; 114]
  else if (c <? 32) || (c =? 127) then
    [92; 120; hex_digit (c / 16); hex_digit (c mod 16)]
  else [c].

Definition repr (s : pystr) : pystr :=
  let quote :=
    if bool_decide (39 ∈ s) && negb (bool_decide (34 ∈ s)) then 34 else 39 in
  [quote] ++ mjoin (escape quote <$> s) ++ [quote].

Definition int (s : pystr) : outcome Z :=
  let body := strip s in
  let '(negative, ds) :=
    match body with
    | 45 :: r => (true, r)
    | 43 :: r => (false, r)
    | _ => (false, body)
    end in
  match digits 0 false ds with
  | Some z => Returns (if negative : bool then (- z)%Z else z)
  | None =>
      Raises (py "invalid literal for int() with base 10: "
              ++ take 200 (repr s))
  end.

(** [str] of an integer. *)
Definition str (z : Z) : pystr := py (NilZero.string_of_int (Z.to_int z)).

Definition type_name (v : pyval) : pystr :=
  match v with
  | PyNone => py "NoneType"
  | PyBool _ => py "bool"
  | PyInt _ => py "int"
  | PyFloat _ => py "float"
  | PyStr _ => py "str"
  | PyList _ => py "list"
  | PyDict _ => py "dict"
  end.

(** The keys of a dict in the order of their first occurrence. *)
Fixpoint dict_keys (items : list (pystr * pyval)) : list pystr :=
  match items with
  | [] => []
  | (k, _) :: rest => k :: filter (λ k', k' ≠ k) (dict_keys rest)
  end.

(** What iterating a value yields: the items of a list, the characters of a
    string, the keys of a dict; [None] for a value that is not iterable. *)
Definition as_sequence (v : pyval) : option (list pyval) :=
  match v with
  | PyStr s => Some ((λ c, PyStr [c]) <$> s)
  | PyList items => Some items
  | PyDict items => Some (PyStr <$> dict_keys items)
  | PyNone | PyBool _ | PyInt _ | PyFloat _ => None
  end.

(** [d[key] = value]: a list or a dict is not hashable; an entry under a
    key that is hashable but not a string is not tracked. *)
Definition set_item (key value : pyval) (d : gmap pystr pyval)
    : outcome (gmap pystr pyval) :=
  match key with
  | PyStr k => Returns (<[k := value]> d)
  | PyList _ => Raises (py "unhashable type: 'list'")
  | PyDict _ => Raises (py "unhashable type: 'dict'")
  | PyNone | PyBool _ | PyInt _ | PyFloat _ => Returns d
  end.

(** [d.update(other)] for an [other] that is a sequence: every element
    must itself have exactly two elements, a key and a value, and is
    assigned before the next one is looked at.  The result is [d] as the
    call leaves it, and the fault when it raised. *)
Fixpoint merge_from_seq (i : nat) (elements : list pyval)
    (d : gmap pystr pyval) : gmap pystr pyval * option pystr :=
  match elements with
  | [] => (d, None)
  | element :: rest =>
      match as_sequence element with
      | None =>
          (d, Some (py "cannot convert dictionary update sequence element #"
                    ++ str (Z.of_nat i) ++ py " to a sequence"))
      | Some [key; value] =>
          match set_item key value d with
          | Returns d' => merge_from_seq (S i) rest d'
          | Raises e => (d, Some e)
          end
      | Some parts =>
          (d, Some (py "dictionary update sequence element #"
                    ++ str (Z.of_nat i) ++ py " has length "
                    ++ str (Z.of_nat (length parts)) ++ py "; 2 is required"))
      end
  end.

(** [d.update(other)]. *)
Definition update (d : gmap pystr pyval) (other : pyval)
    : gmap pystr pyval * option pystr :=
  match other with
  | PyDict items => (foldl (λ m kv, <[kv.1 := kv.2]> m) d items, None)
  | _ =>
      match as_sequence other with
      | Some elements => merge_from_seq 0 elements d
      | None =>
          (d, Some (py "'" ++ type_name other ++ py "' object is not iterable"))
      end
  end.

End Builtins.

Module SettingsDialog.

(** What is found at [CONFIG_PATH / "settings.json"]: no file; a file that
    [open] or [json.load] faults on; a file in which [json.load] reads an
    object, given by its entries; a file in which it reads any other value.
    [_save_settings] dumps a mapping, so it writes a [document]. *)
Inductive config_file :=
| missing
| unreadable (description : pystr)
| document (loaded : gmap pystr pyval)
| not_an_object (loaded : pyval).

Definition default_settings : gmap pystr pyval :=
  <[py "default_interface" := PyStr []]>
  (<[py "theme" := PyStr (py "dark")]>
  (<[py "log_level" := PyStr (py "INFO")]>
  (<[py "sound_enabled" := PyBool false]>
  (<[py "show_hidden_networks" := PyBool true]>
  (<[py "refresh_interval" := PyInt 30]>
  (<[py "auto_refresh" := PyBool true]>
  (<[py "scan_timeout" := PyInt 15]> ∅))))))).

(** The [try] of [_load_settings]: the mapping [default_settings] names
    when the [try] is left, and the fault when it was left by one.
    [update] changes that mapping in place, so what it assigned before
    raising stays. *)
Definition read_config (f : config_file) (defaults : gmap pystr pyval)
    : gmap pystr pyval * option pystr :=
  match f with
  | missing => (defaults, None)
  | unreadable e => (defaults, Some e)
  | document loaded => (loaded ∪ defaults, None)
  | not_an_object loaded => Builtins.update defaults loaded
  end.

Definition _load_settings (f : config_file)
    : gmap pystr pyval * list event :=
  match read_config f default_settings with
  | (settings, None) => (settings, [])
  | (settings, Some e) =>
      (settings, [print (py "[Settings] Error loading config: " ++ e)])
  end.

(** The dialog: the settings mapping, whether a callback was given, the
    variables bound to the form, and whether the window is still open. *)
Record dialog := {
  _settings : gmap pystr pyval;
  _on_save : bool;
  _timeout_var : pystr;
  _hidden_var : bool;
  _refresh_var : bool;
  _interval_var : pystr;
  _iface_var : pystr;
  _theme_var : pystr;
  _log_var : pystr;
  _sound_var : bool;
}.

Definition set_settings (self : dialog) (s : gmap pystr pyval) : dialog :=
  {| _settings := s; _on_save := _on_save self;
     _timeout_var := _timeout_var self; _hidden_var := _hidden_var self;
     _refresh_var := _refresh_var self; _interval_var := _interval_var self;
     _iface_var := _iface_var self; _theme_var := _theme_var self;
     _log_var := _log_var self; _sound_var := _sound_var self |}.

(** A fault while the settings file is written: its description and the file
    it leaves (the old one when [mkdir] or [open] raised, a document cut
    short when [json.dump] did). *)
Record save_fault := { description : pystr; file_left : config_file }.

(** [_save_settings]: the file afterwards and what is printed. *)
Definition _save_settings (fault : option save_fault)
    (self : dialog) (f : config_file) : config_file * list event :=
  match fault with
  | None => (document (_settings self),
             [print (py "[Settings] Configuration saved")])
  | Some flt =>
      (file_left flt,
       [print (py "[Settings] Error saving config: " ++ description flt)])
  end.

(** How a call inside the [try] of [_apply_settings] ends when it does not
    return: with a [ValueError], which the [except] clause catches, or with
    another exception, which leaves the method. *)
Inductive raised :=
| value_error (description : pystr)
| other_error (description : pystr).

(** What [ctk.set_appearance_mode] and the callback [on_save] do when they
    are called: [None] when the call returns. *)
Record ui_calls := {
  theme_fault : option raised;
  callback_fault : option raised;
}.

(** The observable calls of a save: those on the toolkit, the callback
    [on_save], and an exception leaving [_apply_settings]. *)
Inductive settings_event :=
| ui (e : event)
| on_save (settings : gmap pystr pyval)
| propagates (description : pystr).

Section apply.

(** The builtin [int] on strings. *)
Variable int : pystr → outcome Z.

(** [_apply_settings]: the dialog, the settings file and the calls made.
    The assignments run in order, so a fault of the second [int] leaves the
    first three keys assigned in memory.  Everything up to [destroy] is
    inside the [try]: a [ValueError] raised by any call is shown as an
    invalid value, whatever raised it. *)
Definition _apply_settings (calls : ui_calls) (fault : option save_fault)
    (self : dialog) (f : config_file)
    : dialog * config_file * list settings_event :=
  let invalid e :=
    ui (show_message (py "Error") (py "Invalid value: " ++ e) (py "error")) in
  let leaves_try r :=
    match r with
    | value_error e => [invalid e]
    | other_error e => [propagates e]
    end in
  match int (_timeout_var self) with
  | Raises e => (self, f, [invalid e])
  | Returns timeout =>
      let s3 :=
        <[py "auto_refresh" := PyBool (_refresh_var self)]>
        (<[py "show_hidden_networks" := PyBool (_hidden_var self)]>
        (<[py "scan_timeout" := PyInt timeout]> (_settings self))) in
      match int (_interval_var self) with
      | Raises e => (set_settings self s3, f, [invalid e])
      | Returns interval =>
          let s8 :=
            <[py "sound_enabled" := PyBool (_sound_var self)]>
            (<[py "log_level" := PyStr (_log_var self)]>
            (<[py "theme" := PyStr (_theme_var self)]>
            (<[py "default_interface" := PyStr (_iface_var self)]>
            (<[py "refresh_interval" := PyInt interval]> s3)))) in
          let self1 := set_settings self s8 in
          let '(f1, printed) := _save_settings fault self1 f in
          let themed := bool_decide (_theme_var self ≠ py "system") in
          (self1, f1,
           (ui <$> printed) ++
           (if themed
            then [ui (set_appearance_mode (_theme_var self))] else []) ++
           match (if themed then theme_fault calls else None) with
           | Some r => leaves_try r
           | None =>
               (if _on_save self then [on_save s8] else []) ++
               match (if _on_save self then callback_fault calls
                      else None) with
               | Some r => leaves_try r
               | None =>
                   [ui (show_message (py "Settings")
                          (py "Settings saved successfully!") (py "info"));
                    ui destroy]
               end
           end)
      end
  end.

End apply.

(** [_reset_settings], given the answer to the confirmation prompt. *)
Definition _reset_settings (confirmed : bool) (self : dialog) : dialog :=
  if confirmed then
    {| _settings := _settings self; _on_save := _on_save self;
       _timeout_var := py "15"; _hidden_var := true; _refresh_var := true;
       _interval_var := py "30"; _iface_var := py "Auto";
       _theme_var := py "dark"; _log_var := py "INFO";
       _sound_var := false |}
  else self.

(** The two integer fields: the key each is stored under and the label the
    form gives it. *)
Inductive int_field := scan_timeout | refresh_interval.

Definition field_key (fld : int_field) : pystr :=
  match fld with
  | scan_timeout => py "scan_timeout"
  | refresh_interval => py "refresh_interval"
  end.

Definition field_label (fld : int_field) : pystr :=
  match fld with
  | scan_timeout => py "Scan Timeout (seconds)"
  | refresh_interval => py "Refresh Interval (seconds)"
  end.

(** A message names a field when the field's key or label occurs in it. *)
Definition names_field (fld : int_field) (message : pystr) : bool :=
  contains (field_key fld) message || contains (field_label fld) message.

End SettingsDialog.

(** ** Vocabulary of the statements *)

(** The notice of [_copy_password] when there is nothing to copy. *)
Definition no_password_notice : event :=
  show_message (py "Info") (py "No password to copy") (py "info").

(** The calls that change the clipboard. *)
Definition touches_clipboard (e : event) : bool :=
  match e with
  | clipboard_clear | clipboard_append _ => true
  | _ => false
  end.

(** The row [_display_passwords] builds for an entry. *)
Definition row_of (drv : option driver) (item : pystr * option pystr)
    : SavedPasswordsDialog.widget :=
  SavedPasswordsDialog.password_row (PasswordRow.__init__ item.1 item.2 drv).

(** The entries in the order of their names. *)
Definition entries_in_order (m : gmap pystr (option pystr))
    : list (pystr * option pystr) :=
  (λ n, (n, default None (m !! n))) <$> SavedPasswordsDialog.sorted_profiles m.

(** The capability the probing of [load] settles on. *)
Definition probed (drv : option driver) : option capability :=
  match drv with
  | Some d =>
      if bool_decide (is_Some (get_all_saved_passwords d))
      then Some BulkPasswords
      else if bool_decide (is_Some (get_saved_profiles d))
           then Some ListProfiles
           else None
  | None => None
  end.

(** The prompt shown when a field is rejected. *)
Definition invalid_value (e : pystr) : SettingsDialog.settings_event :=
  SettingsDialog.ui
    (show_message (py "Error") (py "Invalid value: " ++ e) (py "error")).

(** ** Sample inputs *)

(** A row as the dialog builds it, for the examples below. *)
Definition sample_driver : driver :=
  {| get_all_saved_passwords := None; get_saved_profiles := None;
     connect := None; get_current_connection := None |}.

Definition sample_row (password : option pystr) : PasswordRow.row :=
  PasswordRow.__init__ (py "HomeNet") password (Some sample_driver).

Definition clipboard_ok : PasswordRow.clipboard_env :=
  {| PasswordRow.clear_fault := None; PasswordRow.append_fault := None |}.

Definition sample_passwords : gmap pystr (option pystr) :=
  <[py "alpha" := Some (py "x")]>
  (<[py "Zeta" := Some (py "hunter2")]> (<[py "beta" := None]> ∅)).

Definition sample_dialog (m : gmap pystr (option pystr))
    : SavedPasswordsDialog.dialog :=
  {| SavedPasswordsDialog._driver := Some sample_driver;
     SavedPasswordsDialog._passwords := m;
     SavedPasswordsDialog._scroll_frame :=
       [SavedPasswordsDialog.label SavedPasswordsDialog.loading_text] |}.

(** Drivers for the examples: one with both listing methods, one with the
    listing of names only, and one whose bulk method raises. *)
Definition both_driver : driver :=
  {| get_all_saved_passwords := Some (Returns sample_passwords);
     get_saved_profiles := Some (Returns [py "Cafe"; py "alpha"]);
     connect := None; get_current_connection := None |}.

Definition names_driver : driver :=
  {| get_all_saved_passwords := None;
     get_saved_profiles := Some (Returns [py "Cafe"; py "alpha"; py "Cafe"]);
     connect := None; get_current_connection := None |}.

Definition faulty_driver : driver :=
  {| get_all_saved_passwords := Some (Raises (py "netsh failed"));
     get_saved_profiles := Some (Returns [py "Cafe"]);
     connect := None; get_current_connection := None |}.

Definition dialog_with (drv : option driver) : SavedPasswordsDialog.dialog :=
  {| SavedPasswordsDialog._driver := drv;
     SavedPasswordsDialog._passwords := ∅;
     SavedPasswordsDialog._scroll_frame :=
       [SavedPasswordsDialog.label SavedPasswordsDialog.loading_text] |}.

(** A driver that connects and then faults on the query, and one that
    connects to the network asked for. *)
Definition query_faults_driver : driver :=
  {| get_all_saved_passwords := None; get_saved_profiles := None;
     connect := Some (λ _, Returns true);
     get_current_connection := Some (Raises (py "wlan query timed out")) |}.

Definition connected_driver (to : option pystr) : driver :=
  {| get_all_saved_passwords := None; get_saved_profiles := None;
     connect := Some (λ _, Returns true);
     get_current_connection :=
       Some (Returns ((λ s, {| ssid := s |}) <$> to)) |}.

Definition row_on (drv : driver) : PasswordRow.row :=
  PasswordRow.__init__ (py "HomeNet") (Some (py "s3cret")) (Some drv).

(** Calls on the toolkit and on the callback that all return. *)
Definition quiet_calls : SettingsDialog.ui_calls :=
  {| SettingsDialog.theme_fault := None;
     SettingsDialog.callback_fault := None |}.

(** A callback that raises a [ValueError]. *)
Definition callback_raises : SettingsDialog.ui_calls :=
  {| SettingsDialog.theme_fault := None;
     SettingsDialog.callback_fault :=
       Some (SettingsDialog.value_error (py "unknown interface")) |}.

(** The document [[["theme", "light"], 5]]. *)
Definition half_array : pyval :=
  PyList [PyList [PyStr (py "theme"); PyStr (py "light")]; PyInt 5].

(** The form as the dialog first shows it, with the two integer fields
    given. *)
Definition form (timeout interval : pystr) : SettingsDialog.dialog :=
  {| SettingsDialog._settings := SettingsDialog.default_settings;
     SettingsDialog._on_save := true;
     SettingsDialog._timeout_var := timeout;
     SettingsDialog._hidden_var := true;
     SettingsDialog._refresh_var := true;
     SettingsDialog._interval_var := interval;
     SettingsDialog._iface_var := py "Auto";
     SettingsDialog._theme_var := py "dark";
     SettingsDialog._log_var := py "INFO";
     SettingsDialog._sound_var := false |}.

(** The prompt's text when the rejected text is [abc]. *)
Definition abc_message : pystr :=
  py "Invalid value: invalid literal for int() with base 10: 'abc'".

(** ** Timers and window geometry *)

(** A callback of a row, as the UI thread runs it.  The lambda handed to
    [after] by [_show_test_result] configures the text of the test button
    only; [display_passwords] is a callback of the dialog, not of a row. *)
Definition run_callback (self : PasswordRow.row) (cb : callback)
    : PasswordRow.row * list event :=
  match cb with
  | restore_copy_btn original_text =>
      (PasswordRow.set_copy_btn self original_text, [])
  | show_test_result success message =>
      PasswordRow._show_test_result self success message
  | restore_test_btn =>
      (PasswordRow.set_test_btn self
         {| PasswordRow.text := link;
            PasswordRow.state :=
              PasswordRow.state (PasswordRow._test_btn self) |}, [])
  | display_passwords => (self, [])
  end.

(** The callbacks scheduled with a positive delay, in the order of the
    calls of [after]; timers of one delay fire in that order. *)
Definition scheduled (evs : list event) : list callback :=
  omap (λ e, match e with
             | after ms cb => if 0 <? ms then Some cb else None
             | _ => None
             end) evs.

Definition fire_all (self : PasswordRow.row) (cbs : list callback)
    : PasswordRow.row :=
  foldl (λ r cb, (run_callback r cb).1) self cbs.

(** A row whose label and toggle icon agree with its visibility flag. *)
Definition shown_consistently (r : PasswordRow.row) : Prop :=
  PasswordRow._password_label r = PasswordRow._get_password_display r ∧
  PasswordRow._toggle_btn r
    = (if PasswordRow._password_visible r then lock else eye).

(** The prompt of [_copy_password] when the clipboard faults. *)
Definition clipboard_error (e : pystr) : event :=
  show_message (py "Error") (py "Could not copy to clipboard: " ++ e)
    (py "error").

(** [a] occurs in [text]. *)
Definition occurs_in (a text : pystr) : Prop :=
  ∃ pre post, text = pre ++ a ++ post.

Module Geometry.

(** What [_center_on_parent] reads of the parent window. *)
Record window := {
  winfo_x : Z;
  winfo_y : Z;
  winfo_width : Z;
  winfo_height : Z;
}.

(** [str] of an integer, as an f-string formats it. *)
Definition str_of_int (z : Z) : pystr :=
  py (NilZero.string_of_int (Z.to_int z)).

(** The position computed by [_center_on_parent]; [//] is the floor
    division. *)
Definition position (dialog_w dialog_h : Z) (parent : window) : Z * Z :=
  ((winfo_x parent + (winfo_width parent - dialog_w) / 2)%Z,
   (winfo_y parent + (winfo_height parent - dialog_h) / 2)%Z).

(** The argument [_center_on_parent] hands to [geometry]. *)
Definition _center_on_parent (dialog_w dialog_h : Z) (parent : window)
    : pystr :=
  let '(x, y) := position dialog_w dialog_h parent in
  str_of_int dialog_w ++ py "x" ++ str_of_int dialog_h ++ py "+"
  ++ str_of_int x ++ py "+" ++ str_of_int y.

(** [SavedPasswordsDialog._center_on_parent] and
    [SettingsDialog._center_on_parent]. *)
Definition passwords_center_on_parent : window → pystr :=
  _center_on_parent 600 500.
Definition settings_center_on_parent : window → pystr :=
  _center_on_parent 500 600.

End Geometry.

(** A parent window for the examples. *)
Definition sample_parent : Geometry.window :=
  {| Geometry.winfo_x := 100; Geometry.winfo_y := 50;
     Geometry.winfo_width := 1205; Geometry.winfo_height := 400 |}.

(** A clipboard whose [clipboard_append] faults. *)
Definition clipboard_append_faults : PasswordRow.clipboard_env :=
  {| PasswordRow.clear_fault := None;
     PasswordRow.append_fault := Some (py "selection owner lost") |}.

(** A driver without [connect], one whose [connect] reports a failure, one
    whose [connect] raises and one that connects but cannot be queried. *)
Definition refusing_driver : driver :=
  {| get_all_saved_passwords := None; get_saved_profiles := None;
     connect := Some (λ _, Returns false);
     get_current_connection := Some (Returns None) |}.

Definition connect_faults_driver : driver :=
  {| get_all_saved_passwords := None; get_saved_profiles := None;
     connect := Some (λ _, Raises (py "adapter busy"));
     get_current_connection := None |}.

Definition blind_driver : driver :=
  {| get_all_saved_passwords := None; get_saved_profiles := None;
     connect := Some (λ _, Returns true);
     get_current_connection := None |}.

(** The keys [_apply_settings] assigns. *)
Definition form_keys : list pystr :=
  [py "scan_timeout"; py "show_hidden_networks"; py "auto_refresh";
   py "refresh_interval"; py "default_interface"; py "theme";
   py "log_level"; py "sound_enabled"].

(** The prompt that ends a save. *)
Definition saved_prompt : SettingsDialog.settings_event :=
  SettingsDialog.ui
    (show_message (py "Settings") (py "Settings saved successfully!")
       (py "info")).

(** A settings mapping with a key the form does not know. *)
Definition custom_settings : gmap pystr pyval :=
  <[py "window_size" := PyList [PyInt 800; PyInt 600]]>
    SettingsDialog.default_settings.

Definition custom_form (timeout interval theme : pystr)
    : SettingsDialog.dialog :=
  {| SettingsDialog._settings := custom_settings;
     SettingsDialog._on_save := false;
     SettingsDialog._timeout_var := timeout;
     SettingsDialog._hidden_var := false;
     SettingsDialog._refresh_var := false;
     SettingsDialog._interval_var := interval;
     SettingsDialog._iface_var := py "wlan0";
     SettingsDialog._theme_var := theme;
     SettingsDialog._log_var := py "DEBUG";
     SettingsDialog._sound_var := true |}.

Definition disk_full : SettingsDialog.save_fault :=
  {| SettingsDialog.description := py "No space left on device";
     SettingsDialog.file_left := SettingsDialog.unreadable (py "truncated") |}.

(** * Properties *)

(** ** Strings *)

Lemma length_str_mul_char (c : N) (n : nat) : length (str_mul [c] n) = n.
Proof.
  unfold str_mul. induction n as [|n IH]; simpl; [done | by rewrite IH].
Qed.

Lemma str_mul_char (c : N) (n : nat) : str_mul [c] n = replicate n c.
Proof.
  unfold str_mul. induction n as [|n IH]; simpl; [done | by rewrite IH].
Qed.

Lemma str_leb_refl (a : pystr) : str_leb a a = true.
Proof.
  induction a as [|x a IH]; simpl; [done |].
  by rewrite N.ltb_irrefl.
Qed.

Lemma str_leb_total (a b : pystr) : str_leb a b = true ∨ str_leb b a = true.
Proof.
  revert b. induction a as [|x a IH]; intros [|y b]; simpl; auto.
  destruct (N.ltb_spec x y), (N.ltb_spec y x); auto; lia.
Qed.

Lemma str_leb_antisym (a b : pystr) :
  str_leb a b = true → str_leb b a = true → a = b.
Proof.
  revert b. induction a as [|x a IH]; intros [|y b]; simpl; try done.
  destruct (N.ltb_spec x y), (N.ltb_spec y x); try done; try lia.
  intros Hab Hba. f_equal; [lia | by apply IH].
Qed.

Lemma str_leb_trans (a b c : pystr) :
  str_leb a b = true → str_leb b c = true → str_leb a c = true.
Proof.
  revert b c. induction a as [|x a IH]; intros [|y b] [|z c]; simpl; try done.
  destruct (N.ltb_spec x y), (N.ltb_spec y z), (N.ltb_spec y x),
    (N.ltb_spec z y), (N.ltb_spec x z), (N.ltb_spec z x);
    try done; try lia.
  apply IH.
Qed.

#[global] Instance str_le_refl : Reflexive str_le.
Proof. intros a. apply str_leb_refl. Qed.

#[global] Instance str_le_trans : Transitive str_le.
Proof. intros a b c. apply str_leb_trans. Qed.

#[global] Instance str_le_total : Total str_le.
Proof. intros a b. apply str_leb_total. Qed.

#[global] Instance str_le_antisym : AntiSymm (=) str_le.
Proof. intros a b. apply str_leb_antisym. Qed.

(** The order is the ordinal one: upper case sorts before lower case. *)
Example str_le_ordinal :
  str_leb (py "Zeta") (py "alpha") = true ∧
  str_leb (py "alpha") (py "Zeta") = false ∧
  str_leb (py "net") (py "net2") = true.
Proof. by vm_compute. Qed.

(** ** The password display *)

Section display.
Import PasswordRow.

Lemma display_hidden (self : row) (p : pystr) :
  _password self = Some p → _password_visible self = false →
  _get_password_display self = replicate (Nat.min (length p) 12) 8226.
Proof.
  intros Hp Hv. unfold _get_password_display. rewrite Hp, Hv.
  apply str_mul_char.
Qed.

Lemma display_absent (self : row) :
  _password self = None → _get_password_display self = no_password_text.
Proof. intros Hp. unfold _get_password_display. by rewrite Hp. Qed.

Lemma toggle_password_field (self : row) :
  _password (_toggle_password self) = _password self.
Proof. done. Qed.

(** C4.  For a stored password [p] the hidden display is [min(len(p), 12)]
    bullets: as many as [p] has characters up to twelve, and twelve beyond.
    For an absent password the display is the fixed no-password text,
    before and after the visibility toggle. *)
Theorem masked_display (self : row) :
  (∀ p, _password self = Some p → _password_visible self = false →
     _get_password_display self = replicate (Nat.min (length p) 12) 8226 ∧
     length (_get_password_display self) = Nat.min (length p) 12 ∧
     ((length p ≤ 12)%nat →
        length (_get_password_display self) = length p) ∧
     ((12 < length p)%nat → length (_get_password_display self) = 12%nat)) ∧
  (_password self = None →
     _get_password_display self = no_password_text ∧
     _get_password_display (_toggle_password self) = no_password_text ∧
     _password_label (_toggle_password self) = no_password_text).
Proof.
  split.
  - intros p Hp Hv. rewrite (display_hidden self p Hp Hv).
    rewrite length_replicate. repeat split; lia.
  - intros Hp. split; [by apply display_absent |].
    assert (_get_password_display (_toggle_password self) = no_password_text)
      as Ht by (apply display_absent; by rewrite toggle_password_field).
    split; [exact Ht |].
    unfold _toggle_password; simpl.
    unfold _get_password_display; simpl. by rewrite Hp.
Qed.

End display.

Lemma masked_display_witness :
  PasswordRow._get_password_display
    (sample_row (Some (py "correct horse battery"))) = replicate 12 8226 ∧
  PasswordRow._get_password_display (sample_row (Some (py "abc")))
    = replicate 3 8226 ∧
  PasswordRow._get_password_display
    (PasswordRow._toggle_password (sample_row None))
    = PasswordRow.no_password_text.
Proof.
  split; [| split].
  - destruct (masked_display (sample_row (Some (py "correct horse battery"))))
      as [H _].
    destruct (H _ eq_refl eq_refl) as [H1 _]. exact H1.
  - destruct (masked_display (sample_row (Some (py "abc")))) as [H _].
    destruct (H _ eq_refl eq_refl) as [H1 _]. exact H1.
  - destruct (masked_display (sample_row None)) as [_ H].
    destruct (H eq_refl) as (_ & H2 & _). exact H2.
Defined.

(** ** Copying a password *)

Section copy.
Import PasswordRow.

Lemma copy_falsy (env : clipboard_env) (self : row) (clipboard : pystr) :
  truthy (_password self) = false →
  _copy_password env self clipboard = (self, clipboard, [no_password_notice]).
Proof. intros H. unfold _copy_password. by rewrite H. Qed.

Lemma copy_truthy (env : clipboard_env) (self : row)
    (clipboard p : pystr) :
  _password self = Some p → p ≠ [] →
  clear_fault env = None → append_fault env = None →
  _copy_password env self clipboard =
    (set_copy_btn self check_mark, p,
     [clipboard_clear; clipboard_append p;
      after 1000 (restore_copy_btn (_copy_btn self))]).
Proof.
  intros Hp Hne Hc Ha. unfold _copy_password. rewrite Hp, Hc, Ha.
  destruct p as [|c p]; [done |]. reflexivity.
Qed.

(** C7, as the code has it.  With no stored password, or with the empty
    string stored, copying shows the notice and leaves the clipboard alone;
    with a non-empty password [p] and a clipboard that does not fault, the
    clipboard holds exactly [p] afterwards. *)
Theorem copy_password_spec (env : clipboard_env) (self : row)
    (clipboard : pystr) :
  (_password self = None ∨ _password self = Some [] →
     _copy_password env self clipboard
       = (self, clipboard, [no_password_notice]) ∧
     existsb touches_clipboard (_copy_password env self clipboard).2 = false) ∧
  (∀ p, _password self = Some p → p ≠ [] →
     clear_fault env = None → append_fault env = None →
     (_copy_password env self clipboard).1.2 = p ∧
     (_copy_password env self clipboard).2 =
       [clipboard_clear; clipboard_append p;
        after 1000 (restore_copy_btn (_copy_btn self))]).
Proof.
  split.
  - intros H.
    assert (truthy (_password self) = false) as Hf
      by (destruct H as [-> | ->]; done).
    rewrite (copy_falsy env self clipboard Hf). done.
  - intros p Hp Hne Hc Ha.
    by rewrite (copy_truthy env self clipboard p Hp Hne Hc Ha).
Qed.

End copy.

Lemma copy_password_spec_witness :
  (PasswordRow._copy_password clipboard_ok (sample_row None) (py "old")).1.2
    = py "old" ∧
  (PasswordRow._copy_password clipboard_ok (sample_row (Some (py "s3cret")))
     (py "old")).1.2 = py "s3cret".
Proof.
  split.
  - destruct (copy_password_spec clipboard_ok (sample_row None) (py "old"))
      as [H _].
    destruct (H (or_introl eq_refl)) as [H1 _]. by rewrite H1.
  - destruct (copy_password_spec clipboard_ok
                (sample_row (Some (py "s3cret"))) (py "old")) as [_ H].
    apply (H (py "s3cret")); [reflexivity | discriminate | done | done].
Defined.

(** C7 as stated fails for the empty string: it is a present password, yet
    copying it shows the notice, and the clipboard keeps its old contents
    instead of holding the empty string. *)
Lemma copy_empty_password_counterexample :
  PasswordRow._password (sample_row (Some [])) = Some [] ∧
  PasswordRow._copy_password clipboard_ok (sample_row (Some [])) (py "old")
    = (sample_row (Some []), py "old", [no_password_notice]).
Proof. split; reflexivity. Qed.

(** ** Rendering the list *)

Section render.
Import PasswordRow SavedPasswordsDialog.

Implicit Types m : gmap pystr (option pystr).

Lemma sorted_profiles_perm m : sorted_profiles m ≡ₚ (map_to_list m).*1.
Proof. apply merge_sort_Permutation. Qed.

Lemma sorted_profiles_NoDup m : NoDup (sorted_profiles m).
Proof.
  rewrite sorted_profiles_perm. apply NoDup_fst_map_to_list.
Qed.

Lemma elem_of_sorted_profiles m n :
  n ∈ sorted_profiles m ↔ is_Some (m !! n).
Proof.
  rewrite sorted_profiles_perm, list_elem_of_fmap. split.
  - intros [[k v] [-> Hin]]. apply elem_of_map_to_list in Hin. by exists v.
  - intros [v Hv]. exists (n, v). split; [done |].
    by apply elem_of_map_to_list.
Qed.

Lemma strictly_sorted (l : list pystr) :
  StronglySorted str_le l → NoDup l → StronglySorted str_lt l.
Proof.
  induction 1 as [|x l Hs IH Hall]; intros Hnd; [constructor |].
  apply NoDup_cons in Hnd as [Hx Hnd].
  constructor; [by apply IH |].
  apply Forall_forall. intros y Hy. split.
  - by eapply Forall_forall in Hall.
  - intros ->. by apply Hx.
Qed.

Lemma sorted_profiles_sorted m : StronglySorted str_lt (sorted_profiles m).
Proof.
  apply strictly_sorted; [| apply sorted_profiles_NoDup].
  apply (StronglySorted_merge_sort str_le).
Qed.

Lemma entries_in_order_names m : (entries_in_order m).*1 = sorted_profiles m.
Proof.
  unfold entries_in_order. rewrite <- list_fmap_compose.
  apply list_fmap_id.
Qed.

Lemma entries_in_order_perm m : entries_in_order m ≡ₚ map_to_list m.
Proof.
  unfold entries_in_order. rewrite sorted_profiles_perm.
  rewrite <- list_fmap_compose.
  assert ((λ n, (n, default None (m !! n))) ∘ fst <$> map_to_list m
          = id <$> map_to_list m) as ->; [| by rewrite list_fmap_id].
  apply Forall_fmap_ext, Forall_forall.
  intros [k v] Hin. apply elem_of_map_to_list in Hin. simpl.
  by rewrite Hin.
Qed.

Lemma rows_built drv m (names : list pystr) :
  (∀ n, n ∈ names → is_Some (m !! n)) →
  mapM (λ profile,
          password ← m !! profile;
          Some (password_row (__init__ profile password drv))) names
  = Some (row_of drv <$> ((λ n, (n, default None (m !! n))) <$> names)).
Proof.
  induction names as [|n names IH]; intros Hin; [done |].
  simpl. destruct (Hin n) as [pw Hpw]; [left |].
  rewrite Hpw. simpl. rewrite IH; [done |].
  intros k Hk. apply Hin. by right.
Qed.

Lemma display_nonempty (self : dialog) :
  _passwords self ≠ ∅ →
  _display_passwords self
  = Some (set_scroll_frame self
            (row_of (_driver self) <$> entries_in_order (_passwords self))).
Proof.
  intros Hne. unfold _display_passwords.
  destruct (decide (_passwords self = ∅)) as [|_]; [done |].
  rewrite rows_built; [done |].
  intros n. by rewrite elem_of_sorted_profiles.
Qed.

Lemma init_fresh (n : pystr) (pw : option pystr) drv :
  _profile_name (__init__ n pw drv) = n ∧
  _password (__init__ n pw drv) = pw ∧
  _password_visible (__init__ n pw drv) = false ∧
  status (__init__ n pw drv) = Some Idle.
Proof. done. Qed.

Lemma display_passwords_total (self : dialog) :
  is_Some (_display_passwords self).
Proof.
  destruct (decide (_passwords self = ∅)) as [He|Hne].
  - unfold _display_passwords. rewrite decide_True by done. eauto.
  - rewrite display_nonempty by done. eauto.
Qed.

(** What a rendering leaves in the frame, read off the dialog it returns:
    the empty-state label alone, or the rows [__init__] builds for the
    entries taken by ascending name. *)
Lemma display_rendered (self : dialog) :
  ∃ shown,
    _display_passwords self = Some shown ∧
    _passwords shown = _passwords self ∧
    _driver shown = _driver self ∧
    (_passwords self = ∅ → _scroll_frame shown = [label empty_text]) ∧
    (_passwords self ≠ ∅ →
       ∃ items,
         items ≡ₚ map_to_list (_passwords self) ∧
         StronglySorted str_lt items.*1 ∧
         Forall2 (λ w item,
                    w = password_row
                          (__init__ item.1 item.2 (_driver self)))
                 (_scroll_frame shown) items).
Proof.
  destruct (decide (_passwords self = ∅)) as [He|Hne].
  - exists (set_scroll_frame self [label empty_text]).
    split; [unfold _display_passwords; by rewrite decide_True |].
    repeat (split; [done |]). done.
  - exists (set_scroll_frame self
              (row_of (_driver self) <$> entries_in_order (_passwords self))).
    split; [by apply display_nonempty |].
    split; [done |]. split; [done |]. split; [done |].
    intros _. exists (entries_in_order (_passwords self)).
    split; [apply entries_in_order_perm |].
    split; [rewrite entries_in_order_names; apply sorted_profiles_sorted |].
    cbn [_scroll_frame set_scroll_frame].
    apply Forall2_fmap_l, Forall_Forall2_diag, Forall_forall.
    by intros item _.
Qed.

(** C6.  Rendering an empty mapping leaves exactly the empty-state label in
    the frame; rendering a non-empty one leaves one row per entry and
    nothing else, the rows in strictly ascending order of their names under
    the code point order, each with its password hidden and its test status
    idle. *)
Theorem display_passwords_spec (self : dialog) :
  ∃ shown,
    _display_passwords self = Some shown ∧
    _passwords shown = _passwords self ∧
    (_passwords self = ∅ → _scroll_frame shown = [label empty_text]) ∧
    (_passwords self ≠ ∅ →
       ∃ items,
         items ≡ₚ map_to_list (_passwords self) ∧
         length (_scroll_frame shown) = size (_passwords self) ∧
         StronglySorted str_lt items.*1 ∧
         Forall2 (λ w item,
                    ∃ r, w = password_row r ∧
                         _profile_name r = item.1 ∧
                         _password r = item.2 ∧
                         _password_visible r = false ∧
                         status r = Some Idle ∧
                         r = __init__ item.1 item.2 (_driver self))
                 (_scroll_frame shown) items).
Proof.
  destruct (display_rendered self) as (shown & Hd & Hp & _ & He & Hne).
  exists shown. split; [exact Hd |]. split; [exact Hp |].
  split; [exact He |].
  intros Hn. destruct (Hne Hn) as (items & Hperm & Hsort & Hrows).
  exists items. split; [exact Hperm |].
  split.
  { rewrite (Forall2_length _ _ _ Hrows), Hperm. apply length_map_to_list. }
  split; [exact Hsort |].
  eapply Forall2_impl; [exact Hrows |].
  intros w [n pw] ->. eexists. split; [reflexivity |].
  repeat (split; [reflexivity |]). reflexivity.
Qed.

End render.

Example display_sample :
  SavedPasswordsDialog._display_passwords (sample_dialog sample_passwords)
  = Some (SavedPasswordsDialog.set_scroll_frame (sample_dialog sample_passwords)
      (row_of (Some sample_driver) <$>
         [(py "Zeta", Some (py "hunter2")); (py "alpha", Some (py "x"));
          (py "beta", None)])).
Proof. vm_compute. reflexivity. Qed.

Lemma sample_passwords_nonempty : sample_passwords ≠ ∅.
Proof. intros H. apply (f_equal size) in H. vm_compute in H. discriminate. Qed.

Lemma display_passwords_spec_witness :
  (∃ shown,
     SavedPasswordsDialog._display_passwords (sample_dialog ∅) = Some shown ∧
     SavedPasswordsDialog._scroll_frame shown
       = [SavedPasswordsDialog.label SavedPasswordsDialog.empty_text]) ∧
  (∃ shown,
     SavedPasswordsDialog._display_passwords (sample_dialog sample_passwords)
       = Some shown ∧
     length (SavedPasswordsDialog._scroll_frame shown) = 3%nat).
Proof.
  split.
  - destruct (display_passwords_spec (sample_dialog ∅))
      as (shown & H1 & _ & H2 & _).
    exists shown. split; [exact H1 |]. apply H2. reflexivity.
  - destruct (display_passwords_spec (sample_dialog sample_passwords))
      as (shown & H1 & _ & _ & H2).
    destruct (H2 sample_passwords_nonempty) as (items & _ & H3 & _).
    exists shown. split; [exact H1 |]. rewrite H3. reflexivity.
Defined.

(** ** The empty password *)

Section empty_password.
Import PasswordRow SavedPasswordsDialog.


Lemma export_text_has_block (m : gmap pystr (option pystr)) n pw :
  m !! n = Some pw → export_block (n, pw) ∈ export_block <$> sorted_items m.
Proof.
  intros H. apply list_elem_of_fmap_2. unfold sorted_items.
  rewrite merge_sort_Permutation. by apply elem_of_map_to_list.
Qed.


End empty_password.


(** ** Loading the list *)

Section loading.
Import SavedPasswordsDialog.

Lemma names_only_lookup_from (profiles : list pystr)
    (m0 : gmap pystr (option pystr)) (n : pystr) :
  foldl (λ m p, <[p := None]> m) m0 profiles !! n
  = if decide (n ∈ profiles) then Some None else m0 !! n.
Proof.
  revert m0. induction profiles as [|p profiles IH]; intros m0; simpl.
  - destruct (decide (n ∈ [])) as [H|]; [by inversion H | done].
  - rewrite IH.
    destruct (decide (n ∈ profiles)) as [Hin|Hnin].
    + rewrite decide_True; [done | by right].
    + destruct (decide (p = n)) as [->|Hne].
      * rewrite lookup_insert_eq. rewrite decide_True; [done | by left].
      * rewrite lookup_insert_ne by done.
        rewrite decide_False; [done |].
        intros Hin. apply elem_of_cons in Hin as [->|Hin]; done.
Qed.

(** Every listed name maps to an absent password and nothing else is in the
    mapping. *)
Lemma names_only_lookup (profiles : list pystr) (n : pystr) :
  names_only profiles !! n = if decide (n ∈ profiles) then Some None else None.
Proof. unfold names_only. by rewrite names_only_lookup_from, lookup_empty. Qed.

Lemma load_calls (self : dialog) :
  driver_calls (load self).1.2 = option_list (probed (_driver self)).
Proof.
  unfold load, probed. destruct (_driver self) as [drv|]; [| done].
  destruct (get_all_saved_passwords drv) as [[m|e]|]; try done.
  destruct (get_saved_profiles drv) as [[ps|e]|]; done.
Qed.

(** C5.  A load calls at most one method of the driver: the bulk one when
    it is there, whose mapping is then the result whatever else the driver
    offers; else the listing one, every listed name then mapped to an absent
    password; else none, the result being the empty mapping. *)
Theorem load_probes_in_order (self : dialog) :
  (length (driver_calls (load self).1.2) ≤ 1)%nat ∧
  (∀ drv m, _driver self = Some drv →
     get_all_saved_passwords drv = Some (Returns m) →
     driver_calls (load self).1.2 = [BulkPasswords] ∧
     _passwords (load self).1.1 = m ∧
     (load self).2 = returned) ∧
  (∀ drv profiles, _driver self = Some drv →
     get_all_saved_passwords drv = None →
     get_saved_profiles drv = Some (Returns profiles) →
     driver_calls (load self).1.2 = [ListProfiles] ∧
     (∀ n, _passwords (load self).1.1 !! n
           = if decide (n ∈ profiles) then Some None else None) ∧
     (load self).2 = returned) ∧
  (_driver self = None ∨
   (∃ drv, _driver self = Some drv ∧ get_all_saved_passwords drv = None ∧
           get_saved_profiles drv = None) →
     driver_calls (load self).1.2 = [] ∧
     _passwords (load self).1.1 = ∅ ∧
     (load self).2 = returned).
Proof.
  split; [| split; [| split]].
  - rewrite load_calls. destruct (probed (_driver self)); simpl; lia.
  - intros drv m Hd Hb. unfold load. by rewrite Hd, Hb.
  - intros drv ps Hd Hb Hl. unfold load. rewrite Hd, Hb, Hl. simpl.
    split; [done |]. split; [| done]. apply names_only_lookup.
  - unfold load. intros [-> | (drv & -> & -> & ->)]; done.
Qed.

(** The rendering a returned load schedules does happen. *)
Lemma load_settled_returned (self : dialog) :
  (load (_load_passwords self)).2 = returned →
  ∃ shown, load_settled self = Some (shown, 1%nat) ∧
           _display_passwords (load (_load_passwords self)).1.1 = Some shown.
Proof.
  unfold load_settled.
  destruct (display_passwords_total (load (_load_passwords self)).1.1)
    as [shown Hs].
  revert Hs. unfold load. simpl.
  destruct (_driver self) as [drv|].
  2:{ simpl. intros -> _. by exists shown. }
  destruct (get_all_saved_passwords drv) as [[m|e]|]; simpl.
  - intros -> _. by exists shown.
  - done.
  - destruct (get_saved_profiles drv) as [[ps|e]|]; simpl.
    + intros -> _. by exists shown.
    + done.
    + intros -> _. by exists shown.
Qed.

(** C1, where the code departs from it.  When the driver method that [load]
    calls raises, the worker thread ends on the fault: nothing is scheduled,
    [_display_passwords] never runs, the mapping is the one before the load
    and the frame keeps the loading label. *)
Theorem load_fault_never_renders (self : dialog) (drv : driver) (e : pystr) :
  _driver self = Some drv →
  get_all_saved_passwords drv = Some (Raises e) ∨
  (get_all_saved_passwords drv = None ∧
   get_saved_profiles drv = Some (Raises e)) →
  (load (_load_passwords self)).2 = uncaught e ∧
  load_settled self
    = Some (set_scroll_frame self [label loading_text], 0%nat).
Proof.
  intros Hd H. unfold load_settled, load. simpl. rewrite Hd.
  destruct H as [-> | [-> ->]]; done.
Qed.

End loading.

Lemma load_probes_in_order_witness :
  SavedPasswordsDialog._passwords
    (SavedPasswordsDialog.load (dialog_with (Some both_driver))).1.1
    = sample_passwords ∧
  SavedPasswordsDialog.driver_calls
    (SavedPasswordsDialog.load (dialog_with (Some names_driver))).1.2
    = [ListProfiles] ∧
  SavedPasswordsDialog._passwords
    (SavedPasswordsDialog.load (dialog_with None)).1.1 = ∅.
Proof.
  split; [| split].
  - destruct (load_probes_in_order (dialog_with (Some both_driver)))
      as (_ & H & _).
    destruct (H both_driver sample_passwords eq_refl eq_refl) as (_ & H2 & _).
    exact H2.
  - destruct (load_probes_in_order (dialog_with (Some names_driver)))
      as (_ & _ & H & _).
    destruct (H names_driver _ eq_refl eq_refl eq_refl) as (H1 & _).
    exact H1.
  - destruct (load_probes_in_order (dialog_with None)) as (_ & _ & _ & H).
    destruct (H (or_introl eq_refl)) as (_ & H2 & _). exact H2.
Defined.

Lemma load_fault_never_renders_witness :
  SavedPasswordsDialog.load_settled (dialog_with (Some faulty_driver))
  = Some (dialog_with (Some faulty_driver), 0%nat).
Proof.
  destruct (load_fault_never_renders (dialog_with (Some faulty_driver))
              faulty_driver (py "netsh failed") eq_refl
              (or_introl eq_refl)) as [_ H].
  exact H.
Defined.

(** What C1 promises at that input, and the code does not do: the empty
    mapping rendered once. *)
Example load_fault_expected :
  SavedPasswordsDialog._display_passwords (dialog_with (Some faulty_driver))
  = Some (SavedPasswordsDialog.set_scroll_frame
            (dialog_with (Some faulty_driver))
            [SavedPasswordsDialog.label SavedPasswordsDialog.empty_text]).
Proof. reflexivity. Qed.

(** ** The connection test *)

Lemma starts_with_app (a b : pystr) : starts_with a (a ++ b) = true.
Proof.
  induction a as [|x a IH]; simpl; [done |].
  by rewrite N.eqb_refl, IH.
Qed.

Lemma contains_start (a hay : pystr) :
  starts_with a hay = true → contains a hay = true.
Proof. intros H. destruct hay; simpl; by rewrite H. Qed.

Lemma contains_app (pre a post : pystr) : contains a (pre ++ a ++ post) = true.
Proof.
  induction pre as [|x pre IH]; simpl.
  - apply contains_start, starts_with_app.
  - rewrite IH. apply orb_true_r.
Qed.

Lemma contains_suffix (pre a : pystr) : contains a (pre ++ a) = true.
Proof. rewrite <- (app_nil_r a) at 2. apply contains_app. Qed.

Section test.
Import PasswordRow.

Lemma do_test_test_btn settle (self : row) (b : button) :
  do_test settle (set_test_btn self b) = do_test settle self.
Proof. reflexivity. Qed.

(** Whatever the worker met, its result reaches [_show_test_result] on the
    UI thread, once. *)
Lemma test_settled (settle : outcome unit) (self : row) :
  test_connection_settled settle self
  = _show_test_result (_test_connection self)
      (do_test settle self).1.1 (do_test settle self).1.2.
Proof.
  unfold test_connection_settled, test_thread, _test_connection.
  rewrite do_test_test_btn. unfold do_test.
  destruct (_driver self) as [drv|]; [| done].
  destruct (connect drv) as [c|]; [| done].
  destruct (c (_profile_name self)) as [[|]|e]; try done.
  destruct settle as [u|e]; [| done].
  destruct (get_current_connection drv) as [[cur|e]|]; done.
Qed.

Lemma msg_connected_unverified (n : pystr) : msg_connected n ≠ msg_unverified.
Proof. discriminate. Qed.

(** C8.  With [connect] returning true and the driver answering the
    current-connection query, a record whose identifier is the profile name
    gives the verified message, and any other answer (another identifier, or
    no record) the unverified one; the two texts differ, and both are
    reported as a success, not a failure. *)
Theorem test_verified_or_unverified (settle : outcome unit) (self : row)
    (drv : driver) (connect_ : pystr → outcome bool) (u : unit)
    (current : option connection) :
  _driver self = Some drv →
  connect drv = Some connect_ →
  connect_ (_profile_name self) = Returns true →
  settle = Returns u →
  get_current_connection drv = Some (Returns current) →
  ((∃ c, current = Some c ∧ ssid c = _profile_name self) →
     (do_test settle self).1
       = (true, msg_connected (_profile_name self))) ∧
  (current = None ∨ (∃ c, current = Some c ∧ ssid c ≠ _profile_name self) →
     (do_test settle self).1 = (true, msg_unverified)) ∧
  msg_connected (_profile_name self) ≠ msg_unverified ∧
  reported_as_failure (test_connection_settled settle self).2 = false ∧
  status (test_connection_settled settle self).1 = Some Succeeded.
Proof.
  intros Hd Hc Hconn Hs Hq.
  assert (do_test settle self
          = (true,
             if verified current (_profile_name self)
             then msg_connected (_profile_name self) else msg_unverified,
             [driver_call Connect (Some (_profile_name self)); sleep 2;
              driver_call CurrentConnection None])) as Ht.
  { unfold do_test. by rewrite Hd, Hc, Hconn, Hs, Hq. }
  split; [| split; [| split; [| split]]].
  - intros (c & -> & Hssid). rewrite Ht. simpl.
    by rewrite bool_decide_true.
  - intros [-> | (c & -> & Hssid)]; rewrite Ht; simpl; [done |].
    by rewrite bool_decide_false.
  - apply msg_connected_unverified.
  - rewrite test_settled, Ht. done.
  - rewrite test_settled, Ht. done.
Qed.

(** X10.  A fault of [connect] itself is caught and reported as a failure,
    with the fault's description in the message. *)
Lemma test_connect_fault (settle : outcome unit) (self : row)
    (drv : driver) (connect_ : pystr → outcome bool) (e : pystr) :
  _driver self = Some drv →
  connect drv = Some connect_ →
  connect_ (_profile_name self) = Raises e →
  (test_connection_settled settle self).2
    = [show_message (py "Connection Test") (msg_error e) (py "warning");
       after 2000 restore_test_btn] ∧
  contains e (msg_error e) = true ∧
  status (test_connection_settled settle self).1 = Some Failed.
Proof.
  intros Hd Hc Hconn.
  assert ((do_test settle self).1 = (false, msg_error e)) as Ht.
  { unfold do_test. by rewrite Hd, Hc, Hconn. }
  rewrite test_settled. destruct (do_test settle self) as [[s m] calls].
  simpl in Ht. injection Ht as -> ->.
  split; [done |]. split; [| done].
  unfold msg_error. rewrite app_assoc. apply contains_suffix.
Qed.

(** C2, where the code departs from it.  A fault raised once [connect] has
    returned true (by the settling wait or by the current-connection query)
    is caught and its description put in the message, but [success] keeps
    the value [connect] gave it: the prompt is an information one and the
    button shows the success mark. *)
Theorem test_fault_after_connect (settle : outcome unit) (self : row)
    (drv : driver) (connect_ : pystr → outcome bool) (e : pystr) :
  _driver self = Some drv →
  connect drv = Some connect_ →
  connect_ (_profile_name self) = Returns true →
  settle = Raises e ∨
  ((∃ u, settle = Returns u) ∧
   get_current_connection drv = Some (Raises e)) →
  (do_test settle self).1 = (true, msg_error e) ∧
  (test_connection_settled settle self).2
    = [show_message (py "Connection Test") (msg_error e) (py "info");
       after 2000 restore_test_btn] ∧
  reported_as_failure (test_connection_settled settle self).2 = false ∧
  status (test_connection_settled settle self).1 = Some Succeeded.
Proof.
  intros Hd Hc Hconn H.
  assert ((do_test settle self).1 = (true, msg_error e)) as Ht.
  { unfold do_test. rewrite Hd, Hc, Hconn.
    destruct H as [-> | [[u ->] ->]]; done. }
  rewrite test_settled. destruct (do_test settle self) as [[s m] calls].
  simpl in Ht. injection Ht as -> ->. done.
Qed.

End test.

Lemma test_verified_or_unverified_witness :
  (PasswordRow.do_test (Returns ())
     (row_on (connected_driver (Some (py "HomeNet"))))).1
    = (true, PasswordRow.msg_connected (py "HomeNet")) ∧
  (PasswordRow.do_test (Returns ())
     (row_on (connected_driver (Some (py "Cafe"))))).1
    = (true, PasswordRow.msg_unverified) ∧
  (PasswordRow.do_test (Returns ()) (row_on (connected_driver None))).1
    = (true, PasswordRow.msg_unverified).
Proof.
  split; [| split].
  - destruct (test_verified_or_unverified (Returns ())
                (row_on (connected_driver (Some (py "HomeNet"))))
                (connected_driver (Some (py "HomeNet"))) (λ _, Returns true)
                () (Some {| ssid := py "HomeNet" |})
                eq_refl eq_refl eq_refl eq_refl eq_refl) as (H & _).
    apply H. by eexists.
  - destruct (test_verified_or_unverified (Returns ())
                (row_on (connected_driver (Some (py "Cafe"))))
                (connected_driver (Some (py "Cafe"))) (λ _, Returns true)
                () (Some {| ssid := py "Cafe" |})
                eq_refl eq_refl eq_refl eq_refl eq_refl) as (_ & H & _).
    apply H. right. eexists. split; [reflexivity | discriminate].
  - destruct (test_verified_or_unverified (Returns ())
                (row_on (connected_driver None))
                (connected_driver None) (λ _, Returns true)
                () None
                eq_refl eq_refl eq_refl eq_refl eq_refl) as (_ & H & _).
    apply H. by left.
Defined.

Lemma test_fault_after_connect_witness :
  (PasswordRow.test_connection_settled (Returns ())
     (row_on query_faults_driver)).2
  = [show_message (py "Connection Test")
       (PasswordRow.msg_error (py "wlan query timed out")) (py "info");
     after 2000 restore_test_btn].
Proof.
  destruct (test_fault_after_connect (Returns ()) (row_on query_faults_driver)
              query_faults_driver (λ _, Returns true)
              (py "wlan query timed out") eq_refl eq_refl eq_refl)
    as (_ & H & _).
  - right. split; [by eexists | reflexivity].
  - exact H.
Defined.

(** ** Settings *)

Section settings.
Import SettingsDialog.

Lemma overlay_lookup (loaded defaults : gmap pystr pyval) (k : pystr) :
  (loaded ∪ defaults) !! k
  = match loaded !! k with
    | Some v => Some v
    | None => defaults !! k
    end.
Proof.
  rewrite lookup_union.
  destruct (loaded !! k), (defaults !! k); done.
Qed.

(** X26.  Loading a file in which [json.load] reads an object gives the
    defaults overlaid with its entries, an entry of the file winning over
    the default of its key.  With no file the result is the default mapping
    itself and nothing is printed; with a file that [open] or [json.load]
    faults on, or whose JSON value is not iterable (null, a boolean, a
    number), the fault is caught and printed and the result is the default
    mapping. *)
Theorem load_settings_overlay :
  (∀ loaded k,
     (_load_settings (document loaded)).1 !! k
     = match loaded !! k with
       | Some v => Some v
       | None => default_settings !! k
       end) ∧
  (∀ loaded, (_load_settings (document loaded)).2 = []) ∧
  _load_settings missing = (default_settings, []) ∧
  (∀ e, _load_settings (unreadable e)
        = (default_settings,
           [print (py "[Settings] Error loading config: " ++ e)])) ∧
  (∀ v, Builtins.as_sequence v = None →
        _load_settings (not_an_object v)
        = (default_settings,
           [print (py "[Settings] Error loading config: "
                   ++ py "'" ++ Builtins.type_name v
                   ++ py "' object is not iterable")])).
Proof.
  split; [| split; [| split; [| split]]].
  - intros loaded k. apply overlay_lookup.
  - reflexivity.
  - reflexivity.
  - reflexivity.
  - intros v Hv. unfold _load_settings, read_config, Builtins.update.
    rewrite Hv. destruct v; try discriminate Hv; reflexivity.
Qed.

(** C9, where the code departs from it.  [update] assigns the pairs of a
    JSON array one by one, in the mapping [default_settings] itself: when an
    element that is not a sequence follows a pair, the fault is caught and
    printed like any other, but the mapping returned is no longer the
    defaults: the key of the pair has the value the file gave it. *)
Theorem load_settings_partly_overwritten (k : pystr) (v bad : pyval)
    (rest : list pyval) :
  Builtins.as_sequence bad = None →
  _load_settings (not_an_object (PyList (PyList [PyStr k; v] :: bad :: rest)))
  = (<[k := v]> default_settings,
     [print (py "[Settings] Error loading config: "
             ++ py "cannot convert dictionary update sequence element #1"
             ++ py " to a sequence")]).
Proof.
  intros Hbad. unfold _load_settings, read_config, Builtins.update.
  cbn [Builtins.as_sequence Builtins.merge_from_seq Builtins.set_item].
  rewrite Hbad. reflexivity.
Qed.

(** The default mapping, key by key. *)
Example default_settings_values :
  default_settings !! py "scan_timeout" = Some (PyInt 15) ∧
  default_settings !! py "auto_refresh" = Some (PyBool true) ∧
  default_settings !! py "refresh_interval" = Some (PyInt 30) ∧
  default_settings !! py "show_hidden_networks" = Some (PyBool true) ∧
  default_settings !! py "sound_enabled" = Some (PyBool false) ∧
  default_settings !! py "log_level" = Some (PyStr (py "INFO")) ∧
  default_settings !! py "theme" = Some (PyStr (py "dark")) ∧
  default_settings !! py "default_interface" = Some (PyStr []) ∧
  size default_settings = 8%nat.
Proof. by vm_compute. Qed.

End settings.

Section apply_settings.
Import SettingsDialog.

(** The builtin [int] on strings, whatever it accepts, and the calls on the
    toolkit and the callback, whatever they do. *)
Variable int : pystr → outcome Z.
Variable calls : ui_calls.

Lemma apply_timeout_rejected fault (self : dialog) (f : config_file) e :
  int (_timeout_var self) = Raises e →
  _apply_settings int calls fault self f = (self, f, [invalid_value e]).
Proof. intros H. unfold _apply_settings. by rewrite H. Qed.

Lemma apply_interval_rejected fault (self : dialog) (f : config_file) t e :
  int (_timeout_var self) = Returns t →
  int (_interval_var self) = Raises e →
  (_apply_settings int calls fault self f).1.2 = f ∧
  (_apply_settings int calls fault self f).2 = [invalid_value e].
Proof. intros Ht Hi. unfold _apply_settings. by rewrite Ht, Hi. Qed.

(** C3, as the code has it.  When [int] rejects the text of the scan
    timeout or of the refresh interval, the settings file is left as it was
    and the only call made is the error prompt, whose text is
    "Invalid value: " followed by the description [int] gave of the first
    rejected text: nothing is printed or written, no theme is applied, the
    callback is not called and the dialog is not destroyed. *)
Theorem apply_settings_rejected fault (self : dialog) (f : config_file) :
  (∃ e, int (_timeout_var self) = Raises e) ∨
  (∃ e, int (_interval_var self) = Raises e) →
  ∃ e,
    (int (_timeout_var self) = Raises e ∨
     (∃ t, int (_timeout_var self) = Returns t) ∧
     int (_interval_var self) = Raises e) ∧
    (_apply_settings int calls fault self f).1.2 = f ∧
    (_apply_settings int calls fault self f).2 = [invalid_value e].
Proof.
  intros H.
  destruct (int (_timeout_var self)) as [t|e] eqn:Ht.
  - destruct H as [[e He] | [e He]]; [done |].
    exists e. split; [right; eauto |].
    by apply (apply_interval_rejected fault self f t e).
  - exists e. split; [by left |].
    by rewrite (apply_timeout_rejected fault self f e Ht).
Qed.

End apply_settings.

Lemma load_settings_overlay_witness :
  SettingsDialog._load_settings (SettingsDialog.not_an_object (PyInt 42))
  = (SettingsDialog.default_settings,
     [print (py "[Settings] Error loading config: "
             ++ py "'int' object is not iterable")]).
Proof.
  destruct load_settings_overlay as (_ & _ & _ & _ & H).
  exact (H (PyInt 42) eq_refl).
Defined.

Lemma load_settings_partly_overwritten_witness :
  SettingsDialog._load_settings (SettingsDialog.not_an_object half_array)
  = (<[py "theme" := PyStr (py "light")]> SettingsDialog.default_settings,
     [print (py "[Settings] Error loading config: "
             ++ py "cannot convert dictionary update sequence element #1"
             ++ py " to a sequence")]).
Proof.
  exact (load_settings_partly_overwritten (py "theme") (PyStr (py "light"))
           (PyInt 5) [] eq_refl).
Defined.

(** At that document the theme read back is the file's, not the default. *)
Example load_settings_half_array_theme :
  (SettingsDialog._load_settings (SettingsDialog.not_an_object half_array)).1
    !! py "theme" = Some (PyStr (py "light")) ∧
  SettingsDialog.default_settings !! py "theme" = Some (PyStr (py "dark")).
Proof. by vm_compute. Qed.

Example int_examples :
  Builtins.int (py "15") = Returns 15%Z ∧
  Builtins.int (py " -1_000 ") = Returns (-1000)%Z ∧
  Builtins.int (py "abc")
    = Raises (py "invalid literal for int() with base 10: 'abc'") ∧
  Builtins.int (py "1.5")
    = Raises (py "invalid literal for int() with base 10: '1.5'") ∧
  Builtins.int []
    = Raises (py "invalid literal for int() with base 10: ''").
Proof. by vm_compute. Qed.

Lemma apply_settings_rejected_witness :
  ∃ e,
    (SettingsDialog._apply_settings Builtins.int quiet_calls None (form (py "15") (py "abc"))
       SettingsDialog.missing).1.2 = SettingsDialog.missing ∧
    (SettingsDialog._apply_settings Builtins.int quiet_calls None (form (py "15") (py "abc"))
       SettingsDialog.missing).2 = [invalid_value e].
Proof.
  destruct (apply_settings_rejected Builtins.int quiet_calls None
              (form (py "15") (py "abc")) SettingsDialog.missing)
    as (e & _ & H1 & H2).
  - right. eexists. vm_compute. reflexivity.
  - exists e. split; [exact H1 | exact H2].
Defined.

(** C3 as stated fails where it has the prompt name the field: the text is
    the description Python gives of the rejected text, the same whichever
    field held it, and neither the key nor the label of the field is in
    it. *)
Lemma apply_settings_names_no_field_counterexample :
  (SettingsDialog._apply_settings Builtins.int quiet_calls None
     (form (py "abc") (py "30")) SettingsDialog.missing).2
    = [SettingsDialog.ui
         (show_message (py "Error") abc_message (py "error"))] ∧
  (SettingsDialog._apply_settings Builtins.int quiet_calls None
     (form (py "15") (py "abc")) SettingsDialog.missing).2
    = [SettingsDialog.ui
         (show_message (py "Error") abc_message (py "error"))] ∧
  SettingsDialog.names_field SettingsDialog.scan_timeout abc_message = false ∧
  SettingsDialog.names_field SettingsDialog.refresh_interval abc_message
    = false.
Proof. by vm_compute. Qed.

(** With both fields accepted the file is written and the dialog closed. *)
Example apply_settings_accepted :
  (SettingsDialog._apply_settings Builtins.int quiet_calls None
     (form (py "20") (py "30")) SettingsDialog.missing).2
  = [SettingsDialog.ui (print (py "[Settings] Configuration saved"));
     SettingsDialog.ui (set_appearance_mode (py "dark"));
     SettingsDialog.on_save
       (<[py "scan_timeout" := PyInt 20]>
          (<[py "default_interface" := PyStr (py "Auto")]>
             SettingsDialog.default_settings));
     SettingsDialog.ui
       (show_message (py "Settings") (py "Settings saved successfully!")
          (py "info"));
     SettingsDialog.ui destroy].
Proof. by vm_compute. Qed.

(** * Further properties of the rows *)

Section row_visibility.
Import PasswordRow.

Lemma init_shown_consistently (n : pystr) (pw : option pystr) drv :
  shown_consistently (__init__ n pw drv).
Proof. split; reflexivity. Qed.

(** X1.  Toggling the visibility never changes the stored password and
    always leaves the label and the icon in step with the flag; on a row
    that was in step, toggling twice gives the row back. *)
Theorem toggle_password_involution (r : row) :
  _password (_toggle_password r) = _password r ∧
  _password_visible (_toggle_password r) = negb (_password_visible r) ∧
  shown_consistently (_toggle_password r) ∧
  (shown_consistently r → _toggle_password (_toggle_password r) = r).
Proof.
  split; [done |]. split; [done |]. split; [by split |].
  intros [Hl Hb]. destruct r as [n pw v drv lbl tb cb tst].
  unfold _toggle_password, _get_password_display in *. simpl in *.
  rewrite negb_involutive. subst lbl tb. reflexivity.
Qed.

(** X2.  On a row with a stored password, one toggle from the hidden state
    puts the password itself on the label and the lock on the button, and
    one toggle from the visible state puts the mask and the eye back. *)
Theorem toggle_reveals_then_masks (r : row) (p : pystr) :
  _password r = Some p →
  (_password_visible r = false →
     _password_label (_toggle_password r) = p ∧
     _toggle_btn (_toggle_password r) = lock) ∧
  (_password_visible r = true →
     _password_label (_toggle_password r)
       = replicate (Nat.min (length p) 12) 8226 ∧
     _toggle_btn (_toggle_password r) = eye).
Proof.
  intros Hp. destruct r as [n pw v drv lbl tb cb tst].
  simpl in Hp. subst pw.
  split; intros Hv; simpl in Hv; subst v;
    unfold _toggle_password, _get_password_display;
    cbn -[str_mul Nat.min]; [done |].
  split; [apply str_mul_char | done].
Qed.

End row_visibility.

Lemma toggle_password_involution_witness :
  PasswordRow._toggle_password
    (PasswordRow._toggle_password (sample_row (Some (py "s3cret"))))
  = sample_row (Some (py "s3cret")).
Proof.
  destruct (toggle_password_involution (sample_row (Some (py "s3cret"))))
    as (_ & _ & _ & H).
  apply H. apply init_shown_consistently.
Defined.

Lemma toggle_reveals_then_masks_witness :
  PasswordRow._password_label
    (PasswordRow._toggle_password (sample_row (Some (py "s3cret"))))
  = py "s3cret".
Proof.
  destruct (toggle_reveals_then_masks (sample_row (Some (py "s3cret")))
              (py "s3cret") eq_refl) as [H _].
  destruct (H eq_refl) as [H1 _]. exact H1.
Defined.

Section row_copy.
Import PasswordRow.

(** X3.  When the clipboard faults during a copy, the fault is caught and
    shown with its description; the button gets no check mark and no timer
    is set.  The clipboard keeps its contents when [clipboard_clear] raised
    and is left empty when [clipboard_append] raised. *)
Theorem copy_clipboard_fault (env : clipboard_env) (self : row)
    (clipboard p e : pystr) :
  _password self = Some p → p ≠ [] →
  (clear_fault env = Some e →
     _copy_password env self clipboard
       = (self, clipboard, [clipboard_error e])) ∧
  (clear_fault env = None → append_fault env = Some e →
     _copy_password env self clipboard
       = (self, [], [clipboard_clear; clipboard_error e])) ∧
  occurs_in e (py "Could not copy to clipboard: " ++ e) ∧
  (is_Some (clear_fault env) ∨ is_Some (append_fault env) →
     scheduled (_copy_password env self clipboard).2 = [] ∧
     (_copy_password env self clipboard).1.1 = self).
Proof.
  intros Hp Hne.
  assert (truthy (_password self) = true) as Ht
    by (rewrite Hp; by destruct p).
  split; [| split; [| split]].
  - intros Hc. unfold _copy_password. by rewrite Ht, Hc.
  - intros Hc Ha. unfold _copy_password. by rewrite Ht, Hc, Ha.
  - exists (py "Could not copy to clipboard: "), []. by rewrite app_nil_r.
  - intros H. unfold _copy_password. rewrite Ht.
    destruct (clear_fault env) as [e1|]; [done |].
    destruct (append_fault env) as [e2|]; [done |].
    destruct H as [[? ?] | [? ?]]; done.
Qed.

Lemma copy_clipboard_result (env : clipboard_env) (self : row)
    (clipboard p : pystr) :
  _password self = Some p → p ≠ [] →
  clear_fault env = None → append_fault env = None →
  _copy_password env self clipboard
  = (set_copy_btn self check_mark, p,
     [clipboard_clear; clipboard_append p;
      after 1000 (restore_copy_btn (_copy_btn self))]).
Proof.
  intros Hp Hne Hc Ha. unfold _copy_password. rewrite Hp, Hc, Ha.
  by destruct p.
Qed.

Lemma set_copy_btn_same (self : row) :
  set_copy_btn self (_copy_btn self) = self.
Proof. by destruct self. Qed.

(** X4.  A successful copy puts the check mark on the copy button and sets
    one timer; when it fires the row is exactly as before the copy. *)
Theorem copy_feedback_restored (env : clipboard_env) (self : row)
    (clipboard p : pystr) :
  _password self = Some p → p ≠ [] →
  clear_fault env = None → append_fault env = None →
  _copy_btn (_copy_password env self clipboard).1.1 = check_mark ∧
  scheduled (_copy_password env self clipboard).2
    = [restore_copy_btn (_copy_btn self)] ∧
  fire_all (_copy_password env self clipboard).1.1
    (scheduled (_copy_password env self clipboard).2) = self.
Proof.
  intros Hp Hne Hc Ha.
  rewrite (copy_clipboard_result env self clipboard p Hp Hne Hc Ha).
  split; [done |]. split; [done |].
  simpl. by destruct self.
Qed.

(** X5.  A second copy made before the timer of the first has fired reads
    the check mark as the label to restore: once both timers have fired the
    button keeps the check mark instead of its own label. *)
Theorem copy_twice_keeps_check_mark (env : clipboard_env) (self : row)
    (clipboard p : pystr) :
  _password self = Some p → p ≠ [] →
  clear_fault env = None → append_fault env = None →
  let first := _copy_password env self clipboard in
  let second := _copy_password env first.1.1 first.1.2 in
  second.1.2 = p ∧
  fire_all second.1.1 (scheduled (first.2 ++ second.2))
    = set_copy_btn self check_mark.
Proof.
  intros Hp Hne Hc Ha first second. subst second first.
  rewrite (copy_clipboard_result env self clipboard p Hp Hne Hc Ha).
  simpl.
  rewrite (copy_clipboard_result env (set_copy_btn self check_mark) p p
             Hp Hne Hc Ha).
  split; [done |]. simpl. by destruct self.
Qed.

End row_copy.

Lemma copy_clipboard_fault_witness :
  PasswordRow._copy_password clipboard_append_faults
    (sample_row (Some (py "s3cret"))) (py "old")
  = (sample_row (Some (py "s3cret")), [],
     [clipboard_clear; clipboard_error (py "selection owner lost")]).
Proof.
  destruct (copy_clipboard_fault clipboard_append_faults
              (sample_row (Some (py "s3cret"))) (py "old") (py "s3cret")
              (py "selection owner lost") eq_refl) as (_ & H & _).
  - discriminate.
  - apply H; reflexivity.
Defined.

Lemma copy_feedback_restored_witness :
  fire_all
    (PasswordRow._copy_password clipboard_ok
       (sample_row (Some (py "s3cret"))) (py "old")).1.1
    (scheduled
       (PasswordRow._copy_password clipboard_ok
          (sample_row (Some (py "s3cret"))) (py "old")).2)
  = sample_row (Some (py "s3cret")).
Proof.
  destruct (copy_feedback_restored clipboard_ok
              (sample_row (Some (py "s3cret"))) (py "old") (py "s3cret")
              eq_refl) as (_ & _ & H); [discriminate | done | done |].
  exact H.
Defined.

Lemma copy_twice_keeps_check_mark_witness :
  PasswordRow._copy_btn
    (fire_all
       (PasswordRow._copy_password clipboard_ok
          (PasswordRow._copy_password clipboard_ok
             (sample_row (Some (py "s3cret"))) (py "old")).1.1
          (py "s3cret")).1.1
       [restore_copy_btn clipboard_icon; restore_copy_btn check_mark])
  = check_mark.
Proof.
  destruct (copy_twice_keeps_check_mark clipboard_ok
              (sample_row (Some (py "s3cret"))) (py "old") (py "s3cret")
              eq_refl) as (_ & H); [discriminate | done | done |].
  exact (f_equal PasswordRow._copy_btn H).
Defined.

(** * Further properties of the connection test *)

Section test_paths.
Import PasswordRow.

(** X6.  From an idle row a test goes through the testing state, with the
    button disabled, to the success or the failure mark, with the button
    enabled again whatever the driver did; the one timer it leaves puts the
    link icon back, and the row is then exactly as before the test. *)
Theorem test_cycle_returns_to_idle (settle : outcome unit) (self : row) :
  _test_btn self = {| text := link; state := normal |} →
  status self = Some Idle ∧
  status (_test_connection self) = Some Testing ∧
  state (_test_btn (_test_connection self)) = disabled ∧
  state (_test_btn (test_connection_settled settle self).1) = normal ∧
  (status (test_connection_settled settle self).1 = Some Succeeded ∨
   status (test_connection_settled settle self).1 = Some Failed) ∧
  scheduled (test_connection_settled settle self).2 = [restore_test_btn] ∧
  fire_all (test_connection_settled settle self).1
    (scheduled (test_connection_settled settle self).2) = self.
Proof.
  intros Hb. rewrite test_settled.
  split; [unfold status; by rewrite Hb |].
  split; [done |]. split; [done |]. split; [done |].
  split; [destruct ((do_test settle self).1.1); [by left | by right] |].
  split; [done |].
  destruct self as [n pw v drv lbl tb cb tst]. simpl in Hb. subst tst.
  reflexivity.
Qed.

(** X7.  Without a driver, or with a driver that has no [connect], the
    test fails at once with the driver-not-available message: no method of
    the driver is called and nothing is waited for. *)
Theorem test_without_connect (settle : outcome unit) (self : row) :
  _driver self = None ∨
  (∃ drv, _driver self = Some drv ∧ connect drv = None) →
  do_test settle self = (false, msg_no_driver, []) ∧
  (test_connection_settled settle self).2
    = [show_message (py "Connection Test") msg_no_driver (py "warning");
       after 2000 restore_test_btn] ∧
  status (test_connection_settled settle self).1 = Some Failed ∧
  occurs_in (py "not available") msg_no_driver.
Proof.
  intros H.
  assert (do_test settle self = (false, msg_no_driver, [])) as Ht.
  { unfold do_test. destruct H as [-> | (drv & -> & ->)]; done. }
  split; [done |]. rewrite test_settled, Ht.
  split; [done |]. split; [done |].
  exists (cross_mark ++ py " Driver "), (py " for connection test").
  reflexivity.
Qed.

(** X8.  When [connect] reports a failure the test fails with a message
    naming the profile; [connect] is the only call made: nothing is waited
    for and the current connection is not queried, even if it could be. *)
Theorem test_connect_refused (settle : outcome unit) (self : row)
    (drv : driver) (connect_ : pystr → outcome bool) :
  _driver self = Some drv →
  connect drv = Some connect_ →
  connect_ (_profile_name self) = Returns false →
  do_test settle self
    = (false, msg_failed (_profile_name self),
       [driver_call Connect (Some (_profile_name self))]) ∧
  reported_as_failure (test_connection_settled settle self).2 = true ∧
  status (test_connection_settled settle self).1 = Some Failed ∧
  occurs_in (_profile_name self) (msg_failed (_profile_name self)).
Proof.
  intros Hd Hc Hr.
  assert (do_test settle self
          = (false, msg_failed (_profile_name self),
             [driver_call Connect (Some (_profile_name self))])) as Ht.
  { unfold do_test. by rewrite Hd, Hc, Hr. }
  split; [done |]. rewrite test_settled, Ht.
  split; [done |]. split; [done |].
  exists (cross_mark ++ py " Could not connect to '"), (py "'").
  unfold msg_failed. by rewrite <- !app_assoc.
Qed.

(** X9.  When [connect] returns true and the driver has no
    current-connection query, the test succeeds after the wait with the
    command-sent message, which names the profile and differs from the
    verified message. *)
Theorem test_unverifiable (settle : outcome unit) (self : row)
    (drv : driver) (connect_ : pystr → outcome bool) (u : unit) :
  _driver self = Some drv →
  connect drv = Some connect_ →
  connect_ (_profile_name self) = Returns true →
  settle = Returns u →
  get_current_connection drv = None →
  do_test settle self
    = (true, msg_sent (_profile_name self),
       [driver_call Connect (Some (_profile_name self)); sleep 2]) ∧
  reported_as_failure (test_connection_settled settle self).2 = false ∧
  status (test_connection_settled settle self).1 = Some Succeeded ∧
  occurs_in (_profile_name self) (msg_sent (_profile_name self)) ∧
  msg_sent (_profile_name self) ≠ msg_connected (_profile_name self).
Proof.
  intros Hd Hc Hr Hs Hq.
  assert (do_test settle self
          = (true, msg_sent (_profile_name self),
             [driver_call Connect (Some (_profile_name self)); sleep 2]))
    as Ht.
  { unfold do_test. by rewrite Hd, Hc, Hr, Hs, Hq. }
  split; [done |]. rewrite test_settled, Ht.
  split; [done |]. split; [done |]. split.
  - exists (white_check ++ py " Connection command sent to '"), (py "'").
    unfold msg_sent. by rewrite <- !app_assoc.
  - discriminate.
Qed.

(** X11.  The calls of a test are an initial part of: [connect] on the
    row's own profile, the wait, the query.  The wait is reached, and
    success reported, only when [connect] returned true. *)
Theorem do_test_call_order (settle : outcome unit) (self : row) :
  (do_test settle self).2
    `prefix_of` [driver_call Connect (Some (_profile_name self)); sleep 2;
                 driver_call CurrentConnection None] ∧
  (sleep 2 ∈ (do_test settle self).2 ∨ (do_test settle self).1.1 = true →
   ∃ drv connect_,
     _driver self = Some drv ∧ connect drv = Some connect_ ∧
     connect_ (_profile_name self) = Returns true).
Proof.
  unfold do_test.
  destruct (_driver self) as [drv|] eqn:Hd.
  2:{ split; [apply prefix_nil |]. intros [H | H]; [by inversion H | done]. }
  destruct (connect drv) as [c|] eqn:Hcn.
  2:{ split; [apply prefix_nil |]. intros [H | H]; [by inversion H | done]. }
  destruct (c (_profile_name self)) as [[|]|e] eqn:Hc.
  - split; [| intros _; exists drv, c; by rewrite Hcn].
    destruct settle as [u|e].
    + destruct (get_current_connection drv) as [[cur|e]|]; simpl.
      * by exists [].
      * by exists [].
      * by exists [driver_call CurrentConnection None].
    + by exists [driver_call CurrentConnection None].
  - split; [by exists [sleep 2; driver_call CurrentConnection None] |].
    intros [H | H]; [| done].
    apply list_elem_of_singleton in H. discriminate.
  - split; [by exists [sleep 2; driver_call CurrentConnection None] |].
    intros [H | H]; [| done].
    apply list_elem_of_singleton in H. discriminate.
Qed.

End test_paths.

Lemma test_cycle_returns_to_idle_witness :
  fire_all
    (PasswordRow.test_connection_settled (Returns ())
       (row_on query_faults_driver)).1
    (scheduled
       (PasswordRow.test_connection_settled (Returns ())
          (row_on query_faults_driver)).2)
  = row_on query_faults_driver.
Proof.
  destruct (test_cycle_returns_to_idle (Returns ())
              (row_on query_faults_driver) eq_refl)
    as (_ & _ & _ & _ & _ & _ & H).
  exact H.
Defined.

Lemma test_without_connect_witness :
  PasswordRow.do_test (Returns ()) (sample_row None)
  = (false, PasswordRow.msg_no_driver, []).
Proof.
  destruct (test_without_connect (Returns ()) (sample_row None)) as [H _].
  - right. exists sample_driver. by split.
  - exact H.
Defined.

Lemma test_connect_refused_witness :
  PasswordRow.do_test (Returns ()) (row_on refusing_driver)
  = (false, PasswordRow.msg_failed (py "HomeNet"),
     [driver_call Connect (Some (py "HomeNet"))]).
Proof.
  destruct (test_connect_refused (Returns ()) (row_on refusing_driver)
              refusing_driver (λ _, Returns false) eq_refl eq_refl eq_refl)
    as [H _].
  exact H.
Defined.

Lemma test_unverifiable_witness :
  PasswordRow.do_test (Returns ()) (row_on blind_driver)
  = (true, PasswordRow.msg_sent (py "HomeNet"),
     [driver_call Connect (Some (py "HomeNet")); sleep 2]).
Proof.
  destruct (test_unverifiable (Returns ()) (row_on blind_driver)
              blind_driver (λ _, Returns true) ()
              eq_refl eq_refl eq_refl eq_refl eq_refl) as [H _].
  exact H.
Defined.

Lemma test_connect_fault_witness :
  (PasswordRow.test_connection_settled (Returns ())
     (row_on connect_faults_driver)).2
  = [show_message (py "Connection Test")
       (PasswordRow.msg_error (py "adapter busy")) (py "warning");
     after 2000 restore_test_btn].
Proof.
  destruct (test_connect_fault (Returns ()) (row_on connect_faults_driver)
              connect_faults_driver (λ _, Raises (py "adapter busy"))
              (py "adapter busy") eq_refl eq_refl eq_refl) as [H _].
  exact H.
Defined.

Lemma do_test_call_order_witness :
  ∃ drv connect_,
    PasswordRow._driver (row_on blind_driver) = Some drv ∧
    connect drv = Some connect_ ∧
    connect_ (PasswordRow._profile_name (row_on blind_driver))
      = Returns true.
Proof.
  destruct (do_test_call_order (Returns ()) (row_on blind_driver))
    as [_ H].
  apply H. right. reflexivity.
Defined.

(** * Further properties of the list of saved passwords *)

Section dialog_load.
Import PasswordRow SavedPasswordsDialog.

Implicit Types m : gmap pystr (option pystr).

(** What [_display_passwords] puts in the frame for a mapping. *)
Lemma display_frame (self : dialog) :
  _display_passwords self
  = Some (set_scroll_frame self
            (if decide (_passwords self = ∅) then [label empty_text]
             else row_of (_driver self)
                    <$> entries_in_order (_passwords self))).
Proof.
  destruct (decide (_passwords self = ∅)) as [He|Hne].
  - unfold _display_passwords. by rewrite decide_True.
  - by apply display_nonempty.
Qed.

(** X12.  When the method the load settles on returns, its mapping (the
    bulk one, or every listed name with an absent password) becomes the
    dialog's and is rendered exactly once: the frame of the dialog then
    holds no loading label but the empty-state label alone, or the rows
    built for the entries by ascending name. *)
Theorem load_returned_renders (self : dialog) (drv : driver) m :
  _driver self = Some drv →
  get_all_saved_passwords drv = Some (Returns m) ∨
  (get_all_saved_passwords drv = None ∧
   ∃ profiles, get_saved_profiles drv = Some (Returns profiles) ∧
               m = names_only profiles) →
  ∃ shown,
    load_settled self = Some (shown, 1%nat) ∧
    _passwords shown = m ∧
    _driver shown = Some drv ∧
    (label loading_text ∉ _scroll_frame shown) ∧
    (m = ∅ → _scroll_frame shown = [label empty_text]) ∧
    (m ≠ ∅ →
       ∃ items,
         items ≡ₚ map_to_list m ∧
         StronglySorted str_lt items.*1 ∧
         Forall2 (λ w item,
                    w = password_row (__init__ item.1 item.2 (Some drv)))
                 (_scroll_frame shown) items).
Proof.
  intros Hd Hm.
  assert (load (_load_passwords self)
          = (set_passwords (_load_passwords self) m,
             (load (_load_passwords self)).1.2, returned) ∧
          ∃ c, (load (_load_passwords self)).1.2
               = [driver_call c None; after 0 display_passwords])
    as [Hl [c Hev]].
  { unfold load. cbn [_load_passwords set_scroll_frame _driver].
    rewrite Hd.
    destruct Hm as [-> | [-> (ps & -> & ->)]]; (split; [done | by eexists]). }
  destruct (display_rendered (set_passwords (_load_passwords self) m))
    as (shown & Hs & Hp & Hdr & He & Hne).
  exists shown.
  split.
  { unfold load_settled. rewrite Hl, Hev. cbn [run_pending].
    rewrite Hs. reflexivity. }
  cbn [_passwords _driver set_passwords _load_passwords set_scroll_frame]
    in Hp, Hdr, He, Hne.
  split; [exact Hp |]. split; [by rewrite Hdr |].
  rewrite Hd in Hne.
  split; [| split; [exact He | exact Hne]].
  destruct (decide (m = ∅)) as [Hm0|Hm0].
  - rewrite (He Hm0). intros H. apply list_elem_of_singleton in H.
    discriminate.
  - destruct (Hne Hm0) as (items & _ & _ & Hrows). intros H.
    clear -H Hrows.
    induction Hrows as [|w item ws its Hw _ IH]; [by inversion H |].
    apply elem_of_cons in H as [Heq | H]; [| by apply IH].
    rewrite <- Heq in Hw. discriminate Hw.
Qed.



(** X14.  Whatever the mapping holds, a rendering shows no password in
    clear: every row it builds is hidden, and its label is the mask of at
    most twelve bullets or the no-password text. *)
Theorem display_shows_no_password (self shown : dialog) :
  _display_passwords self = Some shown →
  Forall (λ w, match w with
               | label t => t = empty_text
               | password_row r =>
                   _password_visible r = false ∧
                   _password_label r
                   = match _password r with
                     | Some p => replicate (Nat.min (length p) 12) 8226
                     | None => no_password_text
                     end
               end) (_scroll_frame shown).
Proof.
  rewrite display_frame. intros [= <-]. simpl.
  destruct (decide (_passwords self = ∅)) as [He|Hne];
    [by repeat constructor |].
  apply Forall_fmap, Forall_forall. intros [n [p|]] _; simpl.
  - split; [done |]. apply str_mul_char.
  - done.
Qed.

(** X15.  The worker [load] assigns [_passwords] and nothing else of the
    dialog; it schedules the rendering exactly when it returns, and when it
    ends on a fault the dialog is as it was. *)
Theorem load_touches_passwords_only (self : dialog) :
  _scroll_frame (load self).1.1 = _scroll_frame self ∧
  _driver (load self).1.1 = _driver self ∧
  ((load self).2 = returned ↔
   after 0 display_passwords ∈ (load self).1.2) ∧
  (∀ e, (load self).2 = uncaught e → (load self).1.1 = self).
Proof.
  assert (∀ c : capability,
            after 0 display_passwords ∈ [driver_call c None] → False)
    as Hnot by (intros c H; apply list_elem_of_singleton in H; done).
  unfold load. destruct (_driver self) as [drv|] eqn:Hd.
  2:{ simpl. rewrite Hd. split; [done |]. split; [done |].
      split; [| done]. split; [intros _; apply list_elem_of_here | done]. }
  destruct (get_all_saved_passwords drv) as [[m|e]|].
  - simpl. rewrite Hd. split; [done |]. split; [done |].
    split; [| done]. split; [intros _; set_solver | done].
  - simpl. rewrite Hd. split; [done |]. split; [done |].
    split; [| done]. split; [done | intros H; by apply Hnot in H].
  - destruct (get_saved_profiles drv) as [[ps|e]|].
    + simpl. rewrite Hd. split; [done |]. split; [done |].
      split; [| done]. split; [intros _; set_solver | done].
    + simpl. rewrite Hd. split; [done |]. split; [done |].
      split; [| done]. split; [done | intros H; by apply Hnot in H].
    + simpl. rewrite Hd. split; [done |]. split; [done |].
      split; [| done]. split; [intros _; apply list_elem_of_here | done].
Qed.

End dialog_load.

Lemma load_returned_renders_witness :
  ∃ shown,
    SavedPasswordsDialog.load_settled (dialog_with (Some both_driver))
      = Some (shown, 1%nat) ∧
    SavedPasswordsDialog._passwords shown = sample_passwords ∧
    (SavedPasswordsDialog.label SavedPasswordsDialog.loading_text
       ∉ SavedPasswordsDialog._scroll_frame shown).
Proof.
  destruct (load_returned_renders (dialog_with (Some both_driver))
              both_driver sample_passwords eq_refl (or_introl eq_refl))
    as (shown & H1 & H2 & _ & H3 & _).
  exists shown. split; [exact H1 |]. split; [exact H2 | exact H3].
Defined.

Lemma display_shows_no_password_witness :
  Forall (λ w, match w with
               | SavedPasswordsDialog.label t =>
                   t = SavedPasswordsDialog.empty_text
               | SavedPasswordsDialog.password_row r =>
                   PasswordRow._password_visible r = false ∧
                   PasswordRow._password_label r
                   = match PasswordRow._password r with
                     | Some p => replicate (Nat.min (length p) 12) 8226
                     | None => PasswordRow.no_password_text
                     end
               end)
    (row_of (Some sample_driver) <$>
       [(py "Zeta", Some (py "hunter2")); (py "alpha", Some (py "x"));
        (py "beta", None)]).
Proof.
  exact (display_shows_no_password (sample_dialog sample_passwords) _
           display_sample).
Defined.

(** * Further properties of the export *)

Section export.
Import SavedPasswordsDialog.

Implicit Types m : gmap pystr (option pystr).

#[local] Instance item_le_total : Total item_le.
Proof. intros a b. apply str_leb_total. Qed.



Lemma occurs_in_mjoin (x : pystr) (l : list pystr) :
  x ∈ l → occurs_in x (mjoin l).
Proof.
  intros Hin. apply list_elem_of_split in Hin as (l1 & l2 & ->).
  exists (mjoin l1), (mjoin l2).
  by rewrite join_app.
Qed.

(** X17.  Every entry is in the exported text with its name and, when it
    has a non-empty password, the password itself in clear; an entry
    without one gets the literal "(no password)". *)
Theorem export_holds_every_entry m (n : pystr) (pw : option pystr) :
  m !! n = Some pw →
  occurs_in (py "Network: " ++ n ++ nl
             ++ py "Password: " ++ py_or pw (py "(no password)") ++ nl)
            (export_text m) ∧
  (∀ p, pw = Some p → p ≠ [] → py_or pw (py "(no password)") = p) ∧
  (truthy pw = false → py_or pw (py "(no password)") = py "(no password)").
Proof.
  intros Hm. split; [| split].
  - destruct (occurs_in_mjoin (export_block (n, pw))
                (export_block <$> sorted_items m)) as (pre & post & He).
    { by apply export_text_has_block. }
    exists ((py "WiFi Tester Pro - Saved Passwords Export" ++ nl) ++
            (str_mul (py "=") 50 ++ nl ++ nl) ++ pre),
           ((str_mul (py "-") 30 ++ nl) ++ post).
    unfold export_text. rewrite He. unfold export_block. simpl fst. simpl snd.
    by rewrite <- !app_assoc.
  - intros p -> Hp. by destruct p.
  - intros Ht. by destruct pw as [[|c p]|].
Qed.

(** X18.  The export touches the destination only when the mapping is not
    empty and a path was chosen: with an empty mapping it shows a notice
    without opening the file dialog, and a cancelled dialog ends it
    silently.  A fault of the file dialog or of [open] is shown with its
    description and no file is touched; a fault of a later write is shown
    the same way and leaves the destination holding the initial part of the
    text that had reached it.  Only without a fault is the whole text
    written and the success prompt, which names the path, shown. *)
Theorem export_guards (chosen : outcome pystr)
    (io_fault : option export_fault) (self : dialog) :
  (_passwords self = ∅ →
     _export_passwords chosen io_fault self
     = [show_message (py "Info") (py "No passwords to export") (py "info")]) ∧
  (_passwords self ≠ ∅ → chosen = Returns [] →
     _export_passwords chosen io_fault self = []) ∧
  (∀ e, _passwords self ≠ ∅ →
     chosen = Raises e ∨
     ((∃ path, chosen = Returns path ∧ path ≠ []) ∧
      io_fault = Some (open_fails e)) →
     _export_passwords chosen io_fault self
     = [show_message (py "Error") (py "Export failed: " ++ e) (py "error")]) ∧
  (∀ path reached e, _passwords self ≠ ∅ →
     chosen = Returns path → path ≠ [] →
     io_fault = Some (write_fails reached e) →
     _export_passwords chosen io_fault self
     = [file_write path (take reached (export_text (_passwords self)));
        show_message (py "Error") (py "Export failed: " ++ e) (py "error")]) ∧
  (∀ path, _passwords self ≠ ∅ →
     chosen = Returns path → path ≠ [] → io_fault = None →
     _export_passwords chosen io_fault self
     = [file_write path (export_text (_passwords self));
        show_message (py "Success")
          (py "Passwords exported to:" ++ nl ++ path) (py "info")]) ∧
  (∀ path text,
     file_write path text ∈ _export_passwords chosen io_fault self →
     _passwords self ≠ ∅ ∧ chosen = Returns path ∧ path ≠ [] ∧
     text `prefix_of` export_text (_passwords self) ∧
     (io_fault = None → text = export_text (_passwords self))).
Proof.
  unfold _export_passwords.
  destruct (decide (_passwords self = ∅)) as [He|Hne].
  { split; [done |]. split; [done |]. split; [done |].
    split; [done |]. split; [done |].
    intros path text H. apply list_elem_of_singleton in H. done. }
  split; [done |]. split; [by intros _ -> |].
  split; [| split; [| split]].
  - intros e _ [-> | [(path & -> & Hp) ->]]; [done |].
    by destruct path.
  - intros path reached e _ -> Hp ->. by destruct path.
  - intros path _ -> Hp ->. by destruct path.
  - intros path text H.
    destruct chosen as [[|c filepath]|e].
    + by apply elem_of_nil in H.
    + destruct io_fault as [[e|reached e]|].
      * apply list_elem_of_singleton in H. done.
      * apply elem_of_cons in H as [[= -> ->] | H].
        -- repeat (split; [done |]). split; [| done].
           apply prefix_take.
        -- apply list_elem_of_singleton in H. done.
      * apply elem_of_cons in H as [[= -> ->] | H]; [done |].
        apply list_elem_of_singleton in H. done.
    + apply list_elem_of_singleton in H. done.
Qed.

End export.

Lemma export_holds_every_entry_witness :
  occurs_in (py "Network: Zeta" ++ nl ++ py "Password: hunter2" ++ nl)
    (SavedPasswordsDialog.export_text sample_passwords).
Proof.
  destruct (export_holds_every_entry sample_passwords (py "Zeta")
              (Some (py "hunter2"))) as [H _].
  - by vm_compute.
  - exact H.
Defined.

Lemma export_guards_witness :
  SavedPasswordsDialog._export_passwords (Returns (py "out.txt")) None
    (sample_dialog ∅)
  = [show_message (py "Info") (py "No passwords to export") (py "info")] ∧
  SavedPasswordsDialog._export_passwords (Returns (py "out.txt"))
    (Some (SavedPasswordsDialog.write_fails 40 (py "No space left")))
    (sample_dialog sample_passwords)
  = [file_write (py "out.txt")
       (take 40 (SavedPasswordsDialog.export_text sample_passwords));
     show_message (py "Error") (py "Export failed: " ++ py "No space left")
       (py "error")] ∧
  SavedPasswordsDialog._export_passwords (Returns (py "out.txt")) None
    (sample_dialog sample_passwords)
  = [file_write (py "out.txt")
       (SavedPasswordsDialog.export_text sample_passwords);
     show_message (py "Success")
       (py "Passwords exported to:" ++ nl ++ py "out.txt") (py "info")].
Proof.
  destruct (export_guards (Returns (py "out.txt")) None (sample_dialog ∅))
    as [H1 _].
  destruct (export_guards (Returns (py "out.txt"))
              (Some (SavedPasswordsDialog.write_fails 40 (py "No space left")))
              (sample_dialog sample_passwords)) as (_ & _ & _ & H2 & _).
  destruct (export_guards (Returns (py "out.txt")) None
              (sample_dialog sample_passwords)) as (_ & _ & _ & _ & H3 & _).
  split; [apply H1; reflexivity |]. split.
  - apply H2; [apply sample_passwords_nonempty | done | done | done].
  - apply H3; [apply sample_passwords_nonempty | done | done | done].
Defined.

(** * Further properties of the settings *)

Section settings_files.
Import SettingsDialog.








End settings_files.

Section settings_saved.
Import SettingsDialog.

Variable int : pystr → outcome Z.
Variable calls : ui_calls.
Variables (self : dialog) (f : config_file) (timeout interval : Z).
Hypothesis timeout_ok : int (_timeout_var self) = Returns timeout.
Hypothesis interval_ok : int (_interval_var self) = Returns interval.

Lemma applied_lookup fault (k : pystr) :
  _settings (_apply_settings int calls fault self f).1.1 !! k
  = if decide (k = py "sound_enabled") then Some (PyBool (_sound_var self))
    else if decide (k = py "log_level") then Some (PyStr (_log_var self))
    else if decide (k = py "theme") then Some (PyStr (_theme_var self))
    else if decide (k = py "default_interface")
         then Some (PyStr (_iface_var self))
    else if decide (k = py "refresh_interval") then Some (PyInt interval)
    else if decide (k = py "auto_refresh")
         then Some (PyBool (_refresh_var self))
    else if decide (k = py "show_hidden_networks")
         then Some (PyBool (_hidden_var self))
    else if decide (k = py "scan_timeout") then Some (PyInt timeout)
    else _settings self !! k.
Proof.
  unfold _apply_settings. rewrite timeout_ok, interval_ok.
  destruct (_save_settings fault _ f) as [f1 printed].
  cbn [fst snd _settings set_settings].
  repeat (rewrite lookup_insert;
          destruct (decide (_ = k)) as [<-|?];
          [by vm_compute | rewrite decide_False by congruence]).
  done.
Qed.



(** X22.  When the theme call and the callback return, a fault while the
    file is written is printed and nothing more: the calls that follow are
    those of a save that went well, ending with the success prompt and the
    closing of the dialog; no other prompt is shown, the mapping in memory
    is the new one, and the file is what the fault left. *)
Theorem apply_settings_hides_save_fault (flt : save_fault) :
  theme_fault calls = None →
  callback_fault calls = None →
  (_apply_settings int calls (Some flt) self f).1.2 = file_left flt ∧
  (_apply_settings int calls (Some flt) self f).1.1
    = (_apply_settings int calls None self f).1.1 ∧
  ∃ rest,
    (_apply_settings int calls (Some flt) self f).2
    = ui (print (py "[Settings] Error saving config: " ++ description flt))
      :: rest ++ [saved_prompt; ui destroy] ∧
    (_apply_settings int calls None self f).2
    = ui (print (py "[Settings] Configuration saved"))
      :: rest ++ [saved_prompt; ui destroy] ∧
    Forall (λ ev, ∀ title message kind,
                    ev ≠ ui (show_message title message kind)) rest.
Proof.
  intros Hth Hcb.
  unfold _apply_settings. rewrite timeout_ok, interval_ok, Hth, Hcb.
  cbn [_save_settings fst snd fmap list_fmap app].
  split; [reflexivity |]. split; [reflexivity |].
  exists ((if bool_decide (_theme_var self ≠ py "system")
           then [ui (set_appearance_mode (_theme_var self))] else [])
          ++ (if _on_save self
              then [on_save (_settings
                               (_apply_settings int calls None self f).1.1)]
              else [])).
  unfold _apply_settings. rewrite timeout_ok, interval_ok.
  cbn [_save_settings fst snd _settings set_settings].
  split; [| split].
  - destruct (bool_decide _), (_on_save self); reflexivity.
  - destruct (bool_decide _), (_on_save self); reflexivity.
  - apply Forall_app. split.
    + destruct (bool_decide _); repeat constructor; discriminate.
    + destruct (_on_save self); repeat constructor; discriminate.
Qed.

(** X27.  A [ValueError] raised by the callback is caught by the clause
    meant for the integer fields: the settings are already stored and
    written and the theme applied, yet the prompt shown last is the
    invalid-value error with the callback's description; there is no
    success prompt and the dialog stays open. *)
Theorem apply_settings_callback_value_error (e : pystr) :
  _on_save self = true →
  theme_fault calls = None →
  callback_fault calls = Some (value_error e) →
  (_apply_settings int calls None self f).1.2
    = document (_settings (_apply_settings int calls None self f).1.1) ∧
  last (_apply_settings int calls None self f).2 = Some (invalid_value e) ∧
  on_save (_settings (_apply_settings int calls None self f).1.1)
    ∈ (_apply_settings int calls None self f).2 ∧
  (saved_prompt ∉ (_apply_settings int calls None self f).2) ∧
  (ui destroy ∉ (_apply_settings int calls None self f).2).
Proof.
  intros Hon Hth Hcb.
  unfold _apply_settings.
  rewrite timeout_ok, interval_ok, Hon, Hth, Hcb.
  cbn [_save_settings fst snd fmap list_fmap app _settings set_settings].
  split; [reflexivity |].
  destruct (bool_decide (_theme_var self ≠ py "system")).
  - split; [reflexivity |]. split; [set_solver |].
    split; intros H;
      repeat (apply elem_of_cons in H as [H | H]; [discriminate H |]);
      by apply elem_of_nil in H.
  - split; [reflexivity |]. split; [set_solver |].
    split; intros H;
      repeat (apply elem_of_cons in H as [H | H]; [discriminate H |]);
      by apply elem_of_nil in H.
Qed.

End settings_saved.

Section settings_rejected.
Import SettingsDialog.

Variable int : pystr → outcome Z.
Variable calls : ui_calls.
Variables (self : dialog) (f : config_file) (timeout : Z) (e : pystr).
Hypothesis timeout_ok : int (_timeout_var self) = Returns timeout.
Hypothesis interval_bad : int (_interval_var self) = Raises e.

(** X23.  When the scan timeout is accepted and the refresh interval is
    rejected, nothing is written but the mapping in memory has already
    taken the first three controls: the scan timeout, the hidden-networks
    switch and the auto-refresh switch; every other key is as before. *)
Theorem apply_settings_partial_update (fault : option save_fault) :
  let stored := _settings (_apply_settings int calls fault self f).1.1 in
  (_apply_settings int calls fault self f).1.2 = f ∧
  stored !! py "scan_timeout" = Some (PyInt timeout) ∧
  stored !! py "show_hidden_networks" = Some (PyBool (_hidden_var self)) ∧
  stored !! py "auto_refresh" = Some (PyBool (_refresh_var self)) ∧
  (∀ k, k ∉ [py "scan_timeout"; py "show_hidden_networks";
             py "auto_refresh"] →
        stored !! k = _settings self !! k).
Proof.
  intros stored. subst stored.
  unfold _apply_settings. rewrite timeout_ok, interval_bad.
  cbn [fst snd _settings set_settings].
  split; [reflexivity |].
  do 3 (split;
        [repeat (rewrite lookup_insert_ne by (vm_compute; discriminate));
         apply lookup_insert_eq |]).
  intros k Hk.
  rewrite !lookup_insert_ne; [reflexivity | | |];
    intros <-; apply Hk; repeat constructor.
Qed.

End settings_rejected.

Section settings_reset.
Import SettingsDialog.

Variable int : pystr → outcome Z.
Variable calls : ui_calls.
Hypothesis int_15 : int (py "15") = Returns 15%Z.
Hypothesis int_30 : int (py "30") = Returns 30%Z.

(** X24.  Reset changes the controls only: the mapping in memory is kept,
    and a declined confirmation changes nothing.  Saving after a reset
    stores the default of every key but [default_interface], which gets
    "Auto" where the default mapping has the empty string. *)
Theorem reset_then_save (self : dialog) (f : config_file) :
  let stored :=
    _settings (_apply_settings int calls None (_reset_settings true self) f).1.1 in
  _settings (_reset_settings true self) = _settings self ∧
  _reset_settings false self = self ∧
  _reset_settings true (_reset_settings true self)
    = _reset_settings true self ∧
  (∀ k, k ∈ form_keys → k ≠ py "default_interface" →
        stored !! k = default_settings !! k) ∧
  stored !! py "default_interface" = Some (PyStr (py "Auto")) ∧
  default_settings !! py "default_interface" = Some (PyStr []).
Proof.
  intros stored. subst stored.
  split; [reflexivity |]. split; [reflexivity |]. split; [reflexivity |].
  split; [| split; [| by vm_compute]].
  - intros k Hk Hne. unfold form_keys in Hk.
    repeat (apply elem_of_cons in Hk as [-> | Hk];
            [first
               [ congruence
               | rewrite (applied_lookup int calls (_reset_settings true self) f
                            15 30 int_15 int_30); vm_compute; reflexivity ]
            |]).
    by apply elem_of_nil in Hk.
  - rewrite (applied_lookup int calls (_reset_settings true self) f
               15 30 int_15 int_30).
    vm_compute. reflexivity.
Qed.

End settings_reset.




Lemma apply_settings_hides_save_fault_witness :
  (SettingsDialog._apply_settings Builtins.int quiet_calls (Some disk_full)
     (custom_form (py "20") (py "45") (py "light"))
     SettingsDialog.missing).1.2
  = SettingsDialog.unreadable (py "truncated").
Proof.
  destruct (apply_settings_hides_save_fault Builtins.int quiet_calls
              (custom_form (py "20") (py "45") (py "light"))
              SettingsDialog.missing 20 45) with (flt := disk_full)
    as [H _]; [by vm_compute | by vm_compute | done | done |].
  exact H.
Defined.

Lemma apply_settings_callback_value_error_witness :
  last (SettingsDialog._apply_settings Builtins.int callback_raises None
          (form (py "20") (py "45")) SettingsDialog.missing).2
  = Some (invalid_value (py "unknown interface")).
Proof.
  destruct (apply_settings_callback_value_error Builtins.int callback_raises
              (form (py "20") (py "45")) SettingsDialog.missing 20 45)
    with (e := py "unknown interface")
    as (_ & H & _); [by vm_compute | by vm_compute | done | done | done |].
  exact H.
Defined.

Lemma apply_settings_partial_update_witness :
  SettingsDialog._settings
    (SettingsDialog._apply_settings Builtins.int quiet_calls None
       (custom_form (py "20") (py "soon") (py "light"))
       (SettingsDialog.document custom_settings)).1.1 !! py "scan_timeout"
  = Some (PyInt 20) ∧
  (SettingsDialog._apply_settings Builtins.int quiet_calls None
     (custom_form (py "20") (py "soon") (py "light"))
     (SettingsDialog.document custom_settings)).1.2
  = SettingsDialog.document custom_settings.
Proof.
  destruct (apply_settings_partial_update Builtins.int quiet_calls
              (custom_form (py "20") (py "soon") (py "light"))
              (SettingsDialog.document custom_settings) 20
              (py "invalid literal for int() with base 10: 'soon'"))
    with (fault := @None SettingsDialog.save_fault)
    as (H1 & H2 & _); [by vm_compute | by vm_compute |].
  split; [exact H2 | exact H1].
Defined.

Lemma reset_then_save_witness :
  SettingsDialog._settings
    (SettingsDialog._apply_settings Builtins.int quiet_calls None
       (SettingsDialog._reset_settings true
          (custom_form (py "20") (py "soon") (py "light")))
       SettingsDialog.missing).1.1 !! py "default_interface"
  = Some (PyStr (py "Auto")).
Proof.
  destruct (reset_then_save Builtins.int quiet_calls) with
    (self := custom_form (py "20") (py "soon") (py "light"))
    (f := SettingsDialog.missing)
    as (_ & _ & _ & _ & H & _); [by vm_compute | by vm_compute |].
  exact H.
Defined.

(** * The position of the dialogs *)

Section geometry.
Import Geometry.

Lemma halves (a : Z) : (0 ≤ a - 2 * (a / 2) ≤ 1)%Z.
Proof. pose proof (Z.mod_pos_bound a 2). rewrite Z.mod_eq in H; lia. Qed.

(** X25.  [_center_on_parent] puts the dialog in the middle of its parent:
    on each axis the margin after the dialog is the margin before it, or
    one pixel more.  A parent smaller than the dialog gives negative
    margins, the dialog then starting before the parent does. *)
Theorem center_on_parent_margins (dialog_w dialog_h : Z) (parent : window) :
  let x := (position dialog_w dialog_h parent).1 in
  let y := (position dialog_w dialog_h parent).2 in
  let left := (x - winfo_x parent)%Z in
  let right := (winfo_x parent + winfo_width parent - (x + dialog_w))%Z in
  let top := (y - winfo_y parent)%Z in
  let bottom := (winfo_y parent + winfo_height parent - (y + dialog_h))%Z in
  (left ≤ right ≤ left + 1)%Z ∧ (top ≤ bottom ≤ top + 1)%Z ∧
  ((winfo_width parent < dialog_w)%Z → (x < winfo_x parent)%Z) ∧
  _center_on_parent dialog_w dialog_h parent
  = str_of_int dialog_w ++ py "x" ++ str_of_int dialog_h ++ py "+"
    ++ str_of_int x ++ py "+" ++ str_of_int y.
Proof.
  intros x y left right top bottom.
  subst left right top bottom x y. unfold position. cbn [fst snd].
  pose proof (halves (winfo_width parent - dialog_w)).
  pose proof (halves (winfo_height parent - dialog_h)).
  split; [lia |]. split; [lia |]. split; [| reflexivity].
  intros Hw.
  assert ((winfo_width parent - dialog_w) / 2 < 0)%Z; [| lia].
  apply Z.div_lt_upper_bound; lia.
Qed.

End geometry.

(** The two dialogs on a parent at (100, 50) of 1205 by 400 pixels. *)
Example center_on_parent_sample :
  Geometry.passwords_center_on_parent sample_parent = py "600x500+402+0" ∧
  Geometry.settings_center_on_parent sample_parent = py "500x600+452+-50".
Proof. by vm_compute. Qed.

Lemma center_on_parent_margins_witness :
  ((Geometry.position 1500 500 sample_parent).1 < 100)%Z.
Proof.
  destruct (center_on_parent_margins 1500 500 sample_parent)
    as (_ & _ & H & _).
  apply H. reflexivity.
Defined.
